(** * TMC429 register-access driver: a shallow embedding of TMC429.c

    The driver talks to the TMC429 motion controller with 32 bit SPI
    telegrams: one address byte followed by three payload bytes, most
    significant first.  The byte-level SPI transfer [ReadWriteSPI] is
    supplied by the user of the driver, so it is a parameter here, and so
    are the constants of TMC429.h.

    Conventions of the embedding:
    - a [uint8_t] is a [Z] in 0..255, a conversion to [uint8_t] is [u8];
      [int32_t] arithmetic that can leave the range is wrapped by [s32];
    - [uint8_t x[4]] and [uint8_t x[3]] are the records [buf4] and [buf3];
      an access with a computed index goes through [buf4_get], which
      answers [None] outside the array;
    - a function that uses the bus lives in the state monad [SPI] over the
      state of the bus and of the device behind it;
    - a local array that is sent before all of it was assigned takes its
      indeterminate first contents as an argument;
    - [float] and [double] are IEEE 754 binary32 and binary64 values of
      [spec_float], every operation rounded to nearest even in the format
      of its C type. *)

From Stdlib Require Import ZArith List Bool Lia Lqa Sorted QArith Qround Qpower SpecFloat.
Import ListNotations.
Local Open Scope Z_scope.

(** ** Machine integers and arrays *)

Definition u8 (x : Z) : Z := x mod 256.

Definition s32 (x : Z) : Z := (x + 2147483648) mod 4294967296 - 2147483648.

Definition is_u8 (x : Z) : Prop := 0 <= x <= 255.

Record buf4 := Buf4 { at0 : Z; at1 : Z; at2 : Z; at3 : Z }.

Record buf3 := Buf3 { hi : Z; mid : Z; lo : Z }.

Definition buf4_get (b : buf4) (i : Z) : option Z :=
  match i with
  | 0 => Some (at0 b)
  | 1 => Some (at1 b)
  | 2 => Some (at2 b)
  | 3 => Some (at3 b)
  | _ => None
  end.

Definition buf3_get (b : buf3) (i : Z) : option Z :=
  match i with
  | 0 => Some (hi b)
  | 1 => Some (mid b)
  | 2 => Some (lo b)
  | _ => None
  end.

Definition is_buf4 (b : buf4) : Prop :=
  is_u8 (at0 b) /\ is_u8 (at1 b) /\ is_u8 (at2 b) /\ is_u8 (at3 b).

(** ** The injected transport and the constants of TMC429.h *)

(** [ReadWriteSPI dev byte last]: send [byte] to the SPI device [dev],
    release the chip select afterwards when [last] is [true], and return
    the byte received meanwhile. *)
Record Transport := {
  Bus : Type;
  ReadWriteSPI : Z -> Z -> bool -> Bus -> Z * Bus
}.

(** The header TMC429.h is not part of the sources at hand; what the
    driver takes from it is kept abstract. *)
Class Header := {
  SPI_DEV_TMC429 : Z;
  TMC429_READ : Z;
  TMC429_IDX_REFCONF_RM : Z -> Z;
  TMC429_IDX_PULSEDIV_RAMPDIV : Z -> Z;
  TMC429_IDX_PMUL_PDIV : Z -> Z;
  TMC429_IDX_AMAX : Z -> Z
}.

(** ** The state monad of the bus *)

Module SPIMonad.

Definition SPI (T : Transport) (A : Type) : Type := Bus T -> A * Bus T.

Definition ret {T A} (a : A) : SPI T A := fun s => (a, s).

Definition bind {T A B} (c : SPI T A) (k : A -> SPI T B) : SPI T B :=
  fun s => let (a, s') := c s in k a s'.

Definition run {T A} (c : SPI T A) (s : Bus T) : A * Bus T := c s.

Declare Scope spi_scope.
Delimit Scope spi_scope with spi.

Notation "x <- c ;; k" := (bind c (fun x => k))
  (at level 61, c at next level, right associativity) : spi_scope.
Notation "c ;;; k" := (bind c (fun _ => k))
  (at level 61, right associativity) : spi_scope.

End SPIMonad.
Import SPIMonad.
Local Open Scope spi_scope.

(** ** The driver *)

Section Driver.

Context {H : Header} (T : Transport).

Definition xfer_byte (b : Z) (last : bool) : SPI T Z :=
  fun s => let (r, s') := ReadWriteSPI T SPI_DEV_TMC429 b last s in (u8 r, s').

(** [ReadWrite429(Read, Write)]: all four elements of [Read] are
    assigned, so the array is the result. *)
Definition ReadWrite429 (Write : buf4) : SPI T buf4 :=
  r0 <- xfer_byte (at0 Write) false ;;
  r1 <- xfer_byte (at1 Write) false ;;
  r2 <- xfer_byte (at2 Write) false ;;
  r3 <- xfer_byte (at3 Write) true ;;
  ret (Buf4 r0 r1 r2 r3).

Definition Write429Bytes (Address : Z) (Bytes : buf3) : SPI T unit :=
  let Write := Buf4 Address (hi Bytes) (mid Bytes) (lo Bytes) in
  _ <- ReadWrite429 Write ;;
  ret tt.

Definition Write429Datagram (Address HighByte MidByte LowByte : Z) : SPI T unit :=
  let Write := Buf4 Address HighByte MidByte LowByte in
  _ <- ReadWrite429 Write ;;
  ret tt.

Definition Write429Zero (Address : Z) : SPI T unit :=
  let Write := Buf4 Address 0 0 0 in
  _ <- ReadWrite429 Write ;;
  ret tt.

Definition Write429Short (Address Value : Z) : SPI T unit :=
  let Write := Buf4 Address 0 (u8 (Z.shiftr Value 8)) (u8 (Z.land Value 255)) in
  _ <- ReadWrite429 Write ;;
  ret tt.

Definition Write429Int (Address Value : Z) : SPI T unit :=
  let Write := Buf4 Address (u8 (Z.shiftr Value 16)) (u8 (Z.shiftr Value 8))
                    (u8 (Z.land Value 255)) in
  _ <- ReadWrite429 Write ;;
  ret tt.

Definition Read429Status : SPI T Z := xfer_byte 1 true.

(** In the readers only [Write[0]] is assigned before the exchange:
    [junk] is what the rest of the local array happens to hold. *)
Definition Read429Bytes (junk : buf4) (Address : Z) : SPI T (Z * buf3) :=
  let Write := Buf4 (u8 (Z.lor Address TMC429_READ)) (at1 junk) (at2 junk) (at3 junk) in
  Read <- ReadWrite429 Write ;;
  ret (at0 Read, Buf3 (at1 Read) (at2 Read) (at3 Read)).

(** [Read[Index+1]] leaves the array for [Index >= 3]: no result then. *)
Definition Read429SingleByte (junk : buf4) (Address Index : Z) : SPI T (option Z) :=
  let Write := Buf4 (u8 (Z.lor Address TMC429_READ)) (at1 junk) (at2 junk) (at3 junk) in
  Read <- ReadWrite429 Write ;;
  ret (buf4_get Read (Index + 1)).

Definition int12_of (Read : buf4) : Z :=
  let Result := Z.lor (Z.shiftl (at2 Read) 8) (at3 Read) in
  if Z.land Result 2048 =? 0 then Result
  else s32 (Z.lor Result 4294963200).

Definition Read429Int12 (junk : buf4) (Address : Z) : SPI T Z :=
  let Write := Buf4 (u8 (Z.lor Address TMC429_READ)) (at1 junk) (at2 junk) (at3 junk) in
  Read <- ReadWrite429 Write ;;
  ret (int12_of Read).

Definition int24_of (Read : buf4) : Z :=
  let Result := Z.lor (Z.lor (Z.shiftl (at1 Read) 16) (Z.shiftl (at2 Read) 8)) (at3 Read) in
  if Z.land Result 8388608 =? 0 then Result
  else s32 (Z.lor Result 4278190080).

Definition Read429Int24 (junk : buf4) (Address : Z) : SPI T Z :=
  let Write := Buf4 (u8 (Z.lor Address TMC429_READ)) (at1 junk) (at2 junk) (at3 junk) in
  Read <- ReadWrite429 Write ;;
  ret (int24_of Read).

Definition Set429RampMode (junk : buf4) (Axis RampMode : Z) : SPI T unit :=
  let Write := Buf4 (u8 (Z.lor (TMC429_IDX_REFCONF_RM Axis) TMC429_READ))
                    (at1 junk) (at2 junk) (at3 junk) in
  Read <- ReadWrite429 Write ;;
  let Write := Buf4 (u8 (TMC429_IDX_REFCONF_RM Axis)) (at1 Read) (at2 Read) RampMode in
  _ <- ReadWrite429 Write ;;
  ret tt.

Definition Set429SwitchMode (junk : buf4) (Axis SwitchMode : Z) : SPI T unit :=
  let Write := Buf4 (u8 (Z.lor (TMC429_IDX_REFCONF_RM Axis) TMC429_READ))
                    (at1 junk) (at2 junk) (at3 junk) in
  Read <- ReadWrite429 Write ;;
  let Write := Buf4 (u8 (TMC429_IDX_REFCONF_RM Axis)) (at1 Read) SwitchMode (at3 Read) in
  _ <- ReadWrite429 Write ;;
  ret tt.

End Driver.

(** ** IEEE 754 arithmetic of the C types

    [double] is binary64 and [float] is binary32.  An [int] operand of a
    [double] operation is converted first (exactly, below 2^53), a [float]
    operand is widened (exactly), and the assignment of a [double] to a
    [float] rounds to binary32. *)

Module Ieee.

Definition dmul : spec_float -> spec_float -> spec_float := SFmul 53 1024.

Definition ddiv : spec_float -> spec_float -> spec_float := SFdiv 53 1024.

Definition double_of_int (n : Z) : spec_float := binary_normalize 53 1024 n 0 false.

Definition float_of_double (x : spec_float) : spec_float :=
  match x with
  | S754_finite s m e => binary_round 24 128 s m e
  | _ => x
  end.

Definition double_of_float (x : spec_float) : spec_float :=
  match x with
  | S754_finite s m e => binary_round 53 1024 s m e
  | _ => x
  end.

(** The literal [0.988]: the binary64 number next to it,
    0x1.f9db22d0e5604p-1. *)
Definition d_0_988 : spec_float := S754_finite false 8899112863684100 (-53).

Definition d_128 : spec_float := double_of_int 128.

Definition d_8 : spec_float := double_of_int 8.

(** The integer part of a finite number, rounded towards zero. *)
Definition trunc (x : spec_float) : option Z :=
  match x with
  | S754_zero _ => Some 0
  | S754_finite s m e =>
      let a := if 0 <=? e then Zpos m * 2 ^ e else Zpos m / 2 ^ (- e) in
      Some (if s then - a else a)
  | _ => None
  end.

(** The number a finite value stands for. *)
Definition SF2Q (x : spec_float) : Q :=
  match x with
  | S754_finite s m e =>
      (inject_Z (if s then Zneg m else Zpos m) * Qpower (inject_Z 2) e)%Q
  | _ => 0%Q
  end.

End Ieee.
Import Ieee.

(** A [double] converts to [int32_t] by truncation when the truncated value
    is an [int32_t].  Otherwise ISO C leaves the conversion undefined and
    the target decides: [cvt_out_of_range] is what its conversion delivers
    then (the "integer indefinite" INT32_MIN of x86, the saturated INT32_MAX
    of the ARM and RISC-V conversions and of the soft-float libraries). *)
Class Target := { cvt_out_of_range : Z }.

Definition int32_of_double {G : Target} (x : spec_float) : Z :=
  match trunc x with
  | Some v => if (-2147483648 <=? v) && (v <=? 2147483647) then v else cvt_out_of_range
  | None => cvt_out_of_range
  end.

(** ** SetAMax *)

Section AMax.

Context {G : Target}.

(** [p]: the quotient is a [double], the assignment rounds it to [float]. *)
Definition amax_p (AMax pulse_div ramp_div : Z) : spec_float :=
  if ramp_div >=? pulse_div
  then float_of_double
         (ddiv (double_of_int AMax)
               (dmul d_128 (double_of_int (Z.shiftl 1 (ramp_div - pulse_div)))))
  else float_of_double
         (ddiv (double_of_int AMax)
               (ddiv d_128 (double_of_int (Z.shiftl 1 (pulse_div - ramp_div))))).

Definition amax_p_reduced (p : spec_float) : spec_float :=
  float_of_double (dmul (double_of_float p) d_0_988).

(** [(int32_t) (p_reduced * 8.0 * (1<<pdiv)) - 128] *)
Definition amax_pmul (p_reduced : spec_float) (pdiv : Z) : Z :=
  s32 (int32_of_double
         (dmul (dmul (double_of_float p_reduced) d_8)
               (double_of_int (Z.shiftl 1 pdiv))) - 128).

Definition pmul_ok (pmul : Z) : bool := (0 <=? pmul) && (pmul <=? 127).

(** One turn of the loop on the pair [(pm, pd)]. *)
Definition amax_step (p_reduced : spec_float) (best : Z * Z) (pdiv : Z) : Z * Z :=
  let pmul := amax_pmul p_reduced pdiv in
  if pmul_ok pmul then (pmul + 128, pdiv) else best.

(** [for(pdiv = 0; pdiv <= 13; pdiv++)] *)
Definition pdiv_range : list Z := map Z.of_nat (seq 0 14).

Definition amax_search (p_reduced : spec_float) : Z * Z :=
  fold_left (amax_step p_reduced) pdiv_range (-1, -1).

(** The two 4 bit fields of the divider byte. *)
Definition pulse_div_of (PulseRampDiv : Z) : Z := Z.shiftr PulseRampDiv 4.

Definition ramp_div_of (PulseRampDiv : Z) : Z := Z.land PulseRampDiv 15.

(** [AMax &= 0x000007FF] *)
Definition amax_masked (AMax : Z) : Z := Z.land AMax 2047.

(** From the masking of [AMax] to the end of the loop, as a function of
    [AMax] and of the divider byte read from the device. *)
Definition amax_solve (AMax PulseRampDiv : Z) : Z * Z :=
  let AMax := amax_masked AMax in
  let pulse_div := pulse_div_of PulseRampDiv in
  let ramp_div := ramp_div_of PulseRampDiv in
  amax_search (amax_p_reduced (amax_p AMax pulse_div ramp_div)).

Context {H : Header} (T : Transport).

(** Modelled from the spec: [Write429U16] comes from TMC429.h, which is
    not among the sources.  Section 4.5 has SetAMax "write the clamped
    AMax value as a 16-bit register" and section 4.2 describes the 16-bit
    write as "zero-filling the unused high payload byte": it is the
    16 bit write accessor. *)
Definition Write429U16 (Address Value : Z) : SPI T unit :=
  Write429Short T Address Value.

Definition SetAMax (junk : buf4) (Motor AMax : Z) : SPI T Z :=
  let AMax := amax_masked AMax in
  r <- Read429Bytes T junk (u8 (TMC429_IDX_PULSEDIV_RAMPDIV Motor)) ;;
  let Data := snd r in
  let PulseRampDiv := mid Data in
  let pulse_div := pulse_div_of PulseRampDiv in
  let ramp_div := ramp_div_of PulseRampDiv in
  let p := amax_p AMax pulse_div ramp_div in
  let p_reduced := amax_p_reduced p in
  let best := amax_search p_reduced in
  let Data := Buf3 0 (u8 (fst best)) (u8 (snd best)) in
  Write429Bytes T (u8 (TMC429_IDX_PMUL_PDIV Motor)) Data ;;;
  Write429U16 (u8 (TMC429_IDX_AMAX Motor)) AMax ;;;
  ret 0.

End AMax.

(** ** Test doubles *)

(** A transport that keeps a record of every transfer it is asked for. *)
Record xfer := Xfer { x_dev : Z; x_byte : Z; x_last : bool }.

Definition logged (T : Transport) : Transport :=
  {| Bus := Bus T * list xfer;
     ReadWriteSPI := fun dev b last s =>
       let (r, s') := ReadWriteSPI T dev b last (fst s) in
       (r, (s', snd s ++ [Xfer dev b last])) |}.

(** The four transfers of one telegram. *)
Definition telegram {H : Header} (a b c d : Z) : list xfer :=
  [ Xfer SPI_DEV_TMC429 a false; Xfer SPI_DEV_TMC429 b false;
    Xfer SPI_DEV_TMC429 c false; Xfer SPI_DEV_TMC429 d true ].

(** The loopback stub: every byte sent comes back. *)
Definition loopback : Transport :=
  {| Bus := unit; ReadWriteSPI := fun _ b _ s => (b, s) |}.

(** A device that answers every transfer with the next byte of a script
    (and with 0 when the script is over). *)
Definition scripted : Transport :=
  {| Bus := list Z;
     ReadWriteSPI := fun _ _ _ s =>
       match s with
       | [] => (0, [])
       | r :: s' => (r, s')
       end |}.

(** The register addresses of the TMC429 data sheet, for the examples. *)
Definition datasheet : Header :=
  {| SPI_DEV_TMC429 := 0;
     TMC429_READ := 1;
     TMC429_IDX_REFCONF_RM := fun motor => Z.lor 20 (Z.shiftl motor 5);
     TMC429_IDX_PULSEDIV_RAMPDIV := fun motor => Z.lor 24 (Z.shiftl motor 5);
     TMC429_IDX_PMUL_PDIV := fun motor => Z.lor 18 (Z.shiftl motor 5);
     TMC429_IDX_AMAX := fun motor => Z.lor 12 (Z.shiftl motor 5) |}.

Definition x86 : Target := {| cvt_out_of_range := -2147483648 |}.

Definition saturating : Target := {| cvt_out_of_range := 2147483647 |}.

(** What an operation sends, transfer by transfer, when it starts on the
    bus state [s] of the transport [T]. *)
Definition sent (T : Transport) {A : Type} (c : SPI (logged T) A) (s : Bus T) : list xfer :=
  snd (snd (run c (s, []))).

(** What the same operation returns. *)
Definition result (T : Transport) {A : Type} (c : SPI T A) (s : Bus T) : A :=
  fst (run c s).

(** The reading of a 12 bit two's complement field, bit 11 the sign. *)
Definition sign_extend12 (x : Z) : Z :=
  let v := x mod 4096 in
  if v <? 2048 then v else v - 4096.

(** A record of transfers cut into telegrams: a telegram ends with the
    transfer that releases the chip select. *)
Fixpoint telegrams_from (cur : list Z) (l : list xfer) : list (list Z) :=
  match l with
  | [] => match cur with [] => [] | _ :: _ => [cur] end
  | x :: l' =>
      if x_last x then (cur ++ [x_byte x]) :: telegrams_from [] l'
      else telegrams_from (cur ++ [x_byte x]) l'
  end.

Definition telegrams (l : list xfer) : list (list Z) := telegrams_from [] l.

(** The address byte of every telegram of a record. *)
Definition address_bytes (l : list xfer) : list Z := map (hd 0) (telegrams l).

(** The read flag of an address byte. *)
Definition read_flag {H : Header} (a : Z) : Z := Z.land a TMC429_READ.

(** Every value of a [uint8_t], for the properties settled by running the
    driver on each of them. *)
Definition all_bytes : list Z := map Z.of_nat (seq 0 256).

(** What [int12_of] makes of the payload bytes (b2, b3): the sign extended
    field when the four bits above it are clear or bit 11 is set, and the
    16 bit number itself otherwise. *)
Definition int12_table_ok (b2 b3 : Z) : bool :=
  int12_of (Buf4 0 0 b2 b3) =?
  (if (b2 <? 16) || Z.testbit b2 3 then sign_extend12 (256 * b2 + b3)
   else 256 * b2 + b3).

(** The multiplier candidate as the description of the search has it,
    floor(p_reduced * 8 * 2^pdiv) - 128, on the rational number that
    [p_reduced] stands for. *)
Definition pmul_exact (p_reduced : spec_float) (pdiv : Z) : Z :=
  Qfloor (SF2Q p_reduced * 8 * inject_Z (2 ^ pdiv)) - 128.

(** A target on which the result of an out-of-range conversion, less 128,
    is no multiplier in 0..127: INT32_MIN and INT32_MAX are such. *)
Definition cvt_is_no_multiplier (G : Target) : Prop :=
  pmul_ok (s32 (cvt_out_of_range - 128)) = false.

(** Zero, or a normal binary32 number that is not negative. *)
Definition float_normal_or_zero (x : spec_float) : bool :=
  match x with
  | S754_zero false => true
  | S754_finite false m e =>
      (digits2_pos m =? 24)%positive && (-149 <=? e) && (e <=? 104)
  | _ => false
  end.

(** The values of the masked [AMax] and of the distance between the two
    dividers, and the check that [p_reduced] is zero or normal on each. *)
Definition amax_inputs : list Z := map Z.of_nat (seq 0 2048).

Definition div_diffs : list Z := map Z.of_nat (seq 0 16).

Definition p_reduced_table_ok (a d : Z) : bool :=
  float_normal_or_zero (amax_p_reduced (amax_p a 0 d)) &&
  float_normal_or_zero (amax_p_reduced (amax_p a d 0)).

(** ** HardStop and Init429 *)

(** What these two take from TMC429.h beyond [Header]; IDX_XLATCHED is
    used without a motor, as the last index of a motor's register block. *)
Class MotionHeader := {
  TMC429_RM_VELOCITY : Z;
  TMC429_NO_REF : Z;
  TMC429_MOTOR : Z -> Z;
  TMC429_IDX_XLATCHED : Z;
  TMC429_IDX_VMIN : Z -> Z;
  TMC429_IDX_VMAX : Z -> Z;
  TMC429_IDX_VTARGET : Z -> Z;
  TMC429_IDX_VACTUAL : Z -> Z;
  TMC429_IDX_IF_CONFIG_429 : Z;
  TMC429_IDX_SMGP : Z;
  TMC429_IFCONF_EN_SD : Z;
  TMC429_IFCONF_EN_REFR : Z;
  TMC429_IFCONF_SDO_INT : Z
}.

Section Motion.

Context {G : Target} {H : Header} {M : MotionHeader} (T : Transport).

(** Modelled from the spec: [Write429U24] comes from TMC429.h, which is
    not among the sources.  Section 4.2 lists one write of "a
    24-bit/16-bit/0-valued payload": it is the 24 bit write accessor. *)
Definition Write429U24 (Address Value : Z) : SPI T unit :=
  Write429Int T Address Value.

(** [Motor] is a [uint32_t]: it is cut to a byte where it is passed on as
    the axis, and the addresses made of it are cut to a byte each. *)
Definition HardStop (junk : buf4) (Motor : Z) : SPI T unit :=
  Set429RampMode T junk (u8 Motor) (u8 TMC429_RM_VELOCITY) ;;;
  Write429Zero T (u8 (TMC429_IDX_VTARGET Motor)) ;;;
  Write429Zero T (u8 (TMC429_IDX_VACTUAL Motor)).

(** A [for] loop whose variable walks a list of values. *)
Fixpoint for_each (l : list Z) (body : Z -> SPI T unit) : SPI T unit :=
  match l with
  | [] => ret tt
  | x :: l' => body x ;;; for_each l' body
  end.

(** The values 0, 1, ..., n of a loop variable ([n] below 2^32 - 1 for
    the 32 bit variable of the inner loop of Init429). *)
Definition upto (n : Z) : list Z := map Z.of_nat (seq 0 (Z.to_nat (n + 1))).

(** The configuration of one motor in the second loop of Init429. *)
Definition Init429_motor (junk : buf4) (motor : Z) : SPI T unit :=
  Write429Datagram T (u8 (TMC429_IDX_PULSEDIV_RAMPDIV motor)) 0 55 6 ;;;
  Write429Datagram T (u8 (TMC429_IDX_REFCONF_RM motor)) 0 (u8 TMC429_NO_REF) 0 ;;;
  Write429U16 T (u8 (TMC429_IDX_VMIN motor)) 1 ;;;
  Write429U24 (u8 (TMC429_IDX_VMAX motor)) 1000 ;;;
  _ <- SetAMax T junk motor 1000 ;;
  ret tt.

(** [junk motor] is what the local array of Read429Bytes holds in the
    call of SetAMax for [motor]. *)
Definition Init429 (junk : Z -> buf4) : SPI T unit :=
  for_each (upto 2) (fun motor =>
    for_each (upto TMC429_IDX_XLATCHED) (fun addr =>
      Write429Zero T (u8 (Z.lor addr (TMC429_MOTOR motor))))) ;;;
  Write429U24 (u8 TMC429_IDX_IF_CONFIG_429)
    (Z.lor (Z.lor TMC429_IFCONF_EN_SD TMC429_IFCONF_EN_REFR) TMC429_IFCONF_SDO_INT) ;;;
  Write429Datagram T (u8 TMC429_IDX_SMGP) 0 0 2 ;;;
  for_each (upto 2) (fun motor => Init429_motor (junk motor) motor).

End Motion.

(** Sample values of these constants, for the examples. *)
Definition datasheet_motion : MotionHeader :=
  {| TMC429_RM_VELOCITY := 2;
     TMC429_NO_REF := 3;
     TMC429_MOTOR := fun motor => Z.shiftl motor 5;
     TMC429_IDX_XLATCHED := 28;
     TMC429_IDX_VMIN := fun motor => Z.lor 4 (Z.shiftl motor 5);
     TMC429_IDX_VMAX := fun motor => Z.lor 6 (Z.shiftl motor 5);
     TMC429_IDX_VTARGET := fun motor => Z.lor 8 (Z.shiftl motor 5);
     TMC429_IDX_VACTUAL := fun motor => Z.lor 10 (Z.shiftl motor 5);
     TMC429_IDX_IF_CONFIG_429 := 104;
     TMC429_IDX_SMGP := 126;
     TMC429_IFCONF_EN_SD := 32;
     TMC429_IFCONF_EN_REFR := 256;
     TMC429_IFCONF_SDO_INT := 2 |}.

(** The reading of a 24 bit two's complement field, bit 23 the sign. *)
Definition sign_extend24 (x : Z) : Z :=
  let v := x mod 16777216 in
  if v <? 8388608 then v else v - 16777216.

(** A record of transfers made of whole telegrams to the TMC429. *)
Inductive whole_telegrams {H : Header} : list xfer -> Prop :=
| whole_nil : whole_telegrams []
| whole_cons (a b c d : Z) (l : list xfer) :
    whole_telegrams l -> whole_telegrams (telegram a b c d ++ l).

(** The telegrams of the first loop of Init429, for the motors [motors]. *)
Definition zero_block {H : Header} {M : MotionHeader} (motor : Z) : list xfer :=
  flat_map (fun addr => telegram (u8 (Z.lor addr (TMC429_MOTOR motor))) 0 0 0)
           (upto TMC429_IDX_XLATCHED).

(** The telegrams of the configuration of one motor, when the device
    answers the read of its divider register with the middle byte [d]. *)
Definition motor_block {G : Target} {H : Header} {M : MotionHeader}
    (junk : buf4) (motor d : Z) : list xfer :=
  telegram (u8 (TMC429_IDX_PULSEDIV_RAMPDIV motor)) 0 55 6 ++
  telegram (u8 (TMC429_IDX_REFCONF_RM motor)) 0 (u8 TMC429_NO_REF) 0 ++
  telegram (u8 (TMC429_IDX_VMIN motor)) 0 0 1 ++
  telegram (u8 (TMC429_IDX_VMAX motor)) 0 3 232 ++
  telegram (u8 (Z.lor (u8 (TMC429_IDX_PULSEDIV_RAMPDIV motor)) TMC429_READ))
           (at1 junk) (at2 junk) (at3 junk) ++
  telegram (u8 (TMC429_IDX_PMUL_PDIV motor)) 0
           (u8 (fst (amax_solve 1000 d))) (u8 (snd (amax_solve 1000 d))) ++
  telegram (u8 (TMC429_IDX_AMAX motor)) 0 3 232.

(** The check that [p] is +0 for AMax = 0 at every distance of the two
    dividers. *)
Definition is_pos_zero (x : spec_float) : bool :=
  match x with
  | S754_zero false => true
  | _ => false
  end.

Definition p_of_zero_ok (d : Z) : bool :=
  is_pos_zero (amax_p 0 0 d) && is_pos_zero (amax_p 0 d 0).

(** floor(p_reduced * 8 * 2^pdiv), the candidate before 128 is taken off. *)
Definition scaled_floor (p_reduced : spec_float) (pdiv : Z) : Z :=
  Qfloor (SF2Q p_reduced * 8 * inject_Z (2 ^ pdiv)).

(** ** The prefixes of Init429 *)

Section Init429Prefix.

Context {G : Target} {H : Header} {M : MotionHeader} (T : Transport).

(** The part of Init429 before the second loop. *)
Definition Init429_start : SPI T unit :=
  for_each T (upto 2) (fun motor =>
    for_each T (upto TMC429_IDX_XLATCHED) (fun addr =>
      Write429Zero T (u8 (Z.lor addr (TMC429_MOTOR motor))))) ;;;
  Write429U24 T (u8 TMC429_IDX_IF_CONFIG_429)
    (Z.lor (Z.lor TMC429_IFCONF_EN_SD TMC429_IFCONF_EN_REFR) TMC429_IFCONF_SDO_INT) ;;;
  Write429Datagram T (u8 TMC429_IDX_SMGP) 0 0 2.

(** The four writes of a turn of the second loop, before its SetAMax. *)
Definition Init429_motor_writes (motor : Z) : SPI T unit :=
  Write429Datagram T (u8 (TMC429_IDX_PULSEDIV_RAMPDIV motor)) 0 55 6 ;;;
  Write429Datagram T (u8 (TMC429_IDX_REFCONF_RM motor)) 0 (u8 TMC429_NO_REF) 0 ;;;
  Write429U16 T (u8 (TMC429_IDX_VMIN motor)) 1 ;;;
  Write429U24 T (u8 (TMC429_IDX_VMAX motor)) 1000.

(** Init429 up to the call of SetAMax for [motor]. *)
Definition Init429_until (junk : Z -> buf4) (motor : Z) : SPI T unit :=
  Init429_start ;;;
  for_each T (upto (motor - 1)) (fun m => Init429_motor T (junk m) m) ;;;
  Init429_motor_writes motor.

(** The middle payload byte that the device answers to the read of the
    divider register in the SetAMax of [motor], Init429 having started on
    the bus state [s]. *)
Definition Init429_divider (junk : Z -> buf4) (s : Bus T) (motor : Z) : Z :=
  at2 (result T
         (ReadWrite429 T
            (Buf4 (u8 (Z.lor (u8 (TMC429_IDX_PULSEDIV_RAMPDIV motor)) TMC429_READ))
                  (at1 (junk motor)) (at2 (junk motor)) (at3 (junk motor))))
         (snd (run (Init429_until junk motor) s))).

End Init429Prefix.

(** * Properties *)

(** ** The telegram exchange *)

Ltac spi_unfold :=
  unfold sent, result, run, SetAMax, Write429U16, Set429RampMode, Set429SwitchMode,
    Read429Int24, Read429Int12, Read429SingleByte, Read429Bytes, Write429Int,
    Write429Short, Write429Zero, Write429Datagram, Write429Bytes, ReadWrite429,
    xfer_byte, bind, ret, telegram.

Ltac spi_step :=
  match goal with
  | |- context [ReadWriteSPI ?T ?d ?b ?l ?s] =>
      let r := fresh "r" in
      let s' := fresh "s" in
      let E := fresh "E" in
      destruct (ReadWriteSPI T d b l s) as [r s'] eqn:E; cbn [fst snd app]
  end.

Ltac spi_run := spi_unfold; cbn [logged ReadWriteSPI Bus fst snd app]; repeat spi_step.

Lemma ReadWrite429_logged {H : Header} (T : Transport) (W : buf4) (s : Bus T) (log : list xfer) :
  run (ReadWrite429 (logged T) W) (s, log) =
  (fst (run (ReadWrite429 T W) s),
   (snd (run (ReadWrite429 T W) s),
    log ++ telegram (at0 W) (at1 W) (at2 W) (at3 W))).
Proof.
  spi_run. rewrite <- !app_assoc. reflexivity.
Qed.

Lemma u8_small (x : Z) : is_u8 x -> u8 x = x.
Proof. unfold is_u8, u8. intros Hx. apply Z.mod_small. lia. Qed.

Lemma u8_is_u8 (x : Z) : is_u8 (u8 x).
Proof. unfold is_u8, u8. pose proof (Z.mod_pos_bound x 256). lia. Qed.

Lemma u8_land (x : Z) : u8 x = Z.land x 255.
Proof. unfold u8. change 255 with (Z.ones 8). rewrite Z.land_ones by lia. reflexivity. Qed.

(** C5: ReadWrite429 makes exactly four transfers, the bytes of the write
    buffer in their order, the first three with the chip select held
    (FALSE) and only the fourth releasing it (TRUE); the four bytes
    received are stored in the order of their arrival; and against the
    loopback stub the read buffer is the write buffer. *)
Theorem ReadWrite429_four_transfers {H : Header} (W : buf4) :
  (forall (T : Transport) (s : Bus T),
      sent T (ReadWrite429 (logged T) W) s =
      [ Xfer SPI_DEV_TMC429 (at0 W) false; Xfer SPI_DEV_TMC429 (at1 W) false;
        Xfer SPI_DEV_TMC429 (at2 W) false; Xfer SPI_DEV_TMC429 (at3 W) true ]) /\
  (forall (r0 r1 r2 r3 : Z) (rest : list Z),
      run (ReadWrite429 scripted W) (r0 :: r1 :: r2 :: r3 :: rest) =
      (Buf4 (u8 r0) (u8 r1) (u8 r2) (u8 r3), rest)) /\
  (is_buf4 W -> result loopback (ReadWrite429 loopback W) tt = W).
Proof.
  split; [| split].
  - intros T s. spi_run. reflexivity.
  - intros. reflexivity.
  - intros (H0 & H1 & H2 & H3). destruct W as [w0 w1 w2 w3]. cbn in *.
    unfold result, run, ReadWrite429, xfer_byte, bind, ret. cbn.
    rewrite !u8_small by assumption. reflexivity.
Qed.

Lemma ReadWrite429_four_transfers_witness :
  result loopback (ReadWrite429 (H := datasheet) loopback (Buf4 18 0 247 1)) tt = Buf4 18 0 247 1.
Proof.
  apply (ReadWrite429_four_transfers (H := datasheet) (Buf4 18 0 247 1)).
  unfold is_buf4, is_u8. cbn. lia.
Defined.

(** ** The write accessors *)

Lemma shiftr_byte (V k : Z) : 0 <= k -> u8 (Z.shiftr V k) = (V / 2 ^ k) mod 256.
Proof. intros Hk. unfold u8. rewrite Z.shiftr_div_pow2 by lia. reflexivity. Qed.

Lemma low_byte (V : Z) : u8 (Z.land V 255) = V mod 256.
Proof.
  unfold u8. change 255 with (Z.ones 8). rewrite Z.land_ones by lia.
  change (2 ^ 8) with 256. apply Z.mod_mod. lia.
Qed.

Lemma Write429Short_sent {H : Header} (T : Transport) (s : Bus T) (Address V : Z) :
  sent T (Write429Short (logged T) Address V) s =
  telegram Address 0 ((V / 256) mod 256) (V mod 256).
Proof.
  spi_run. rewrite (shiftr_byte V 8), low_byte by lia. reflexivity.
Qed.

Lemma Write429Int_sent {H : Header} (T : Transport) (s : Bus T) (Address V : Z) :
  sent T (Write429Int (logged T) Address V) s =
  telegram Address ((V / 65536) mod 256) ((V / 256) mod 256) (V mod 256).
Proof.
  spi_run. rewrite (shiftr_byte V 8), (shiftr_byte V 16), low_byte by lia. reflexivity.
Qed.

(** C6: for V in 0..65535 the 16 bit write sends the payload
    (0, high(V), low(V)); for V in 0..2^24-1 the 24 bit write sends
    (high24(V), mid(V), low(V)); and a wider value is sent as its
    truncation modulo 2^16, respectively 2^24. *)
Theorem write_accessors_payload {H : Header} (T : Transport) (s : Bus T) (Address V : Z) :
  (0 <= V <= 65535 ->
   sent T (Write429Short (logged T) Address V) s =
   telegram Address 0 (V / 256) (V mod 256)) /\
  (0 <= V <= 16777215 ->
   sent T (Write429Int (logged T) Address V) s =
   telegram Address (V / 65536) ((V / 256) mod 256) (V mod 256)) /\
  sent T (Write429Short (logged T) Address V) s =
  sent T (Write429Short (logged T) Address (V mod 65536)) s /\
  sent T (Write429Int (logged T) Address V) s =
  sent T (Write429Int (logged T) Address (V mod 16777216)) s.
Proof.
  rewrite !Write429Short_sent, !Write429Int_sent.
  repeat split.
  - intros HV. rewrite (Z.mod_small (V / 256)); [reflexivity |].
    Z.div_mod_to_equations. lia.
  - intros HV. rewrite (Z.mod_small (V / 65536)); [reflexivity |].
    Z.div_mod_to_equations. lia.
  - replace ((V mod 65536 / 256) mod 256) with ((V / 256) mod 256)
      by (Z.div_mod_to_equations; lia).
    replace ((V mod 65536) mod 256) with (V mod 256)
      by (Z.div_mod_to_equations; lia).
    reflexivity.
  - replace ((V mod 16777216 / 65536) mod 256) with ((V / 65536) mod 256)
      by (Z.div_mod_to_equations; lia).
    replace ((V mod 16777216 / 256) mod 256) with ((V / 256) mod 256)
      by (Z.div_mod_to_equations; lia).
    replace ((V mod 16777216) mod 256) with (V mod 256)
      by (Z.div_mod_to_equations; lia).
    reflexivity.
Qed.

Lemma write_accessors_payload_witness :
  sent loopback (Write429Short (H := datasheet) (logged loopback) 44 1000) tt =
  telegram (H := datasheet) 44 0 3 232 /\
  sent loopback (Write429Int (H := datasheet) (logged loopback) 6 1000000) tt =
  telegram (H := datasheet) 6 15 66 64.
Proof.
  split.
  - apply (proj1 (write_accessors_payload (H := datasheet) loopback tt 44 1000)). lia.
  - apply (proj1 (proj2 (write_accessors_payload (H := datasheet) loopback tt 6 1000000))).
    lia.
Defined.

(** ** The mode setters *)

(** C7: when the device answers the read telegram of the ramp
    configuration register with the contents (h, m, old_mode), then
    Set429RampMode writes back (h, m, new_mode), the high and the middle
    payload byte as they were read, and Set429SwitchMode writes back
    (h, new_mode, l): telegram bytes 1 and 3 as read and only the middle
    payload byte replaced. *)
Theorem mode_setters_preserve_other_bytes {H : Header} (T : Transport) (s : Bus T)
    (junk : buf4) (Axis Mode st h m l : Z) :
  result T (ReadWrite429 T (Buf4 (u8 (Z.lor (TMC429_IDX_REFCONF_RM Axis) TMC429_READ))
                                 (at1 junk) (at2 junk) (at3 junk))) s = Buf4 st h m l ->
  sent T (Set429RampMode (logged T) junk Axis Mode) s =
    telegram (u8 (Z.lor (TMC429_IDX_REFCONF_RM Axis) TMC429_READ))
             (at1 junk) (at2 junk) (at3 junk) ++
    telegram (u8 (TMC429_IDX_REFCONF_RM Axis)) h m Mode
  /\
  sent T (Set429SwitchMode (logged T) junk Axis Mode) s =
    telegram (u8 (Z.lor (TMC429_IDX_REFCONF_RM Axis) TMC429_READ))
             (at1 junk) (at2 junk) (at3 junk) ++
    telegram (u8 (TMC429_IDX_REFCONF_RM Axis)) h Mode l.
Proof.
  spi_run. intros Hread. inversion Hread; subst. split; reflexivity.
Qed.

Lemma mode_setters_preserve_other_bytes_witness :
  sent scripted (Set429RampMode (H := datasheet) (logged scripted) (Buf4 0 0 0 0) 1 2)
       [128; 1; 15; 0] =
    telegram (H := datasheet) 53 0 0 0 ++ telegram (H := datasheet) 52 1 15 2
  /\
  sent scripted (Set429SwitchMode (H := datasheet) (logged scripted) (Buf4 0 0 0 0) 1 2)
       [128; 1; 15; 0] =
    telegram (H := datasheet) 53 0 0 0 ++ telegram (H := datasheet) 52 1 2 0.
Proof.
  apply (mode_setters_preserve_other_bytes (H := datasheet) scripted [128; 1; 15; 0]
           (Buf4 0 0 0 0) 1 2 128 1 15 0).
  reflexivity.
Defined.

(** ** The read accessors *)

(** C9: for Index in 0..2 the access [Read[Index+1]] of Read429SingleByte
    stays inside the four byte answer and delivers payload byte Index of
    the register, the byte Read429Bytes stores at that index; with
    Index = 3 the access is one past the last byte of the answer. *)
Theorem Read429SingleByte_index {H : Header} (T : Transport) (s : Bus T)
    (junk : buf4) (Address Index : Z) :
  (0 <= Index <= 2 ->
   exists v : Z,
     result T (Read429SingleByte T junk Address Index) s = Some v /\
     buf3_get (snd (result T (Read429Bytes T junk Address) s)) Index = Some v /\
     buf4_get (result T (ReadWrite429 T (Buf4 (u8 (Z.lor Address TMC429_READ))
                                              (at1 junk) (at2 junk) (at3 junk))) s)
              (Index + 1) = Some v) /\
  result T (Read429SingleByte T junk Address 3) s = None.
Proof.
  split.
  - intros HI.
    assert (Index = 0 \/ Index = 1 \/ Index = 2) as [-> | [-> | ->]] by lia;
      spi_run; eexists; repeat split; reflexivity.
  - spi_run. reflexivity.
Qed.

Lemma Read429SingleByte_index_witness :
  exists v : Z,
    result scripted (Read429SingleByte (H := datasheet) scripted (Buf4 0 0 0 0) 20 2)
           [128; 1; 15; 3] = Some v /\
    buf3_get (snd (result scripted (Read429Bytes (H := datasheet) scripted (Buf4 0 0 0 0) 20)
                          [128; 1; 15; 3])) 2 = Some v /\
    buf4_get (result scripted (ReadWrite429 (H := datasheet) scripted (Buf4 21 0 0 0))
                     [128; 1; 15; 3]) (2 + 1) = Some v.
Proof.
  apply (proj1 (Read429SingleByte_index (H := datasheet) scripted [128; 1; 15; 3]
                  (Buf4 0 0 0 0) 20 2)).
  lia.
Defined.

(** ** The read flag *)

Lemma read_flag_set {H : Header} (a : Z) :
  is_u8 TMC429_READ -> read_flag (u8 (Z.lor a TMC429_READ)) = TMC429_READ.
Proof.
  intros HR. unfold read_flag. rewrite u8_land, Z.land_lor_distr_l.
  rewrite <- (u8_land TMC429_READ), (u8_small _ HR).
  apply Z.bits_inj'. intros n Hn.
  rewrite Z.land_spec, Z.lor_spec.
  destruct (Z.testbit TMC429_READ n);
    [rewrite orb_true_r; reflexivity | apply andb_false_r].
Qed.

Lemma read_flag_clear {H : Header} (a : Z) :
  read_flag a = 0 -> read_flag (u8 a) = 0.
Proof.
  unfold read_flag. intros Ha.
  rewrite u8_land, <- Z.land_assoc, (Z.land_comm 255), Z.land_assoc, Ha.
  reflexivity.
Qed.

Lemma read_flag_u8 {H : Header} (a : Z) :
  is_u8 TMC429_READ -> read_flag (u8 a) = read_flag a.
Proof.
  intros HR. unfold read_flag.
  rewrite u8_land, <- Z.land_assoc, (Z.land_comm 255), <- u8_land, (u8_small _ HR).
  reflexivity.
Qed.

(** C10, as stated, fails for a write to an address that carries the read
    flag: Write429Zero(21) sends the address byte 21 as it is, flag set,
    and Init429 makes such calls: its telegram number 50 is the zero
    telegram for address 21 of motor 1, the byte 53. *)
Lemma write_to_odd_address_carries_read_flag :
  address_bytes (sent scripted (Write429Zero (H := datasheet) (logged scripted) 21) [])
    = [21] /\
  read_flag (H := datasheet) 21 = 1 /\
  nth 50 (telegrams (sent scripted
                       (Init429 (G := x86) (H := datasheet) (M := datasheet_motion)
                                (logged scripted) (fun _ => Buf4 0 0 0 0)) [])) []
    = [53; 0; 0; 0] /\
  read_flag (H := datasheet) 53 = 1.
Proof. repeat split; vm_compute; reflexivity. Qed.

(** C10, amended: every operation that reads the device (Read429Bytes,
    Read429SingleByte, Read429Int12, Read429Int24 and the first telegram of
    Set429RampMode and Set429SwitchMode) sends TMC429_READ or-ed into its
    address byte, so the read flag is set there, whatever the address;
    every write operation, the write-back of the two setters included,
    sends the address as it was passed, with nothing or-ed in, so the read
    flag of a write telegram is the read flag of the address supplied:
    clear for a register address without the flag, set for an address that
    carries it. *)
Theorem read_flag_discipline {H : Header} (T : Transport) (s : Bus T)
    (junk : buf4) (Address Index Axis Mode HighByte MidByte LowByte Value : Z)
    (Bytes : buf3) :
  is_u8 TMC429_READ ->
  let rd := u8 (Z.lor Address TMC429_READ) in
  let rm_rd := u8 (Z.lor (TMC429_IDX_REFCONF_RM Axis) TMC429_READ) in
  let rm_wr := u8 (TMC429_IDX_REFCONF_RM Axis) in
  (address_bytes (sent T (Read429Bytes (logged T) junk Address) s) = [rd] /\
   address_bytes (sent T (Read429SingleByte (logged T) junk Address Index) s) = [rd] /\
   address_bytes (sent T (Read429Int12 (logged T) junk Address) s) = [rd] /\
   address_bytes (sent T (Read429Int24 (logged T) junk Address) s) = [rd] /\
   address_bytes (sent T (Set429RampMode (logged T) junk Axis Mode) s) = [rm_rd; rm_wr] /\
   address_bytes (sent T (Set429SwitchMode (logged T) junk Axis Mode) s) = [rm_rd; rm_wr]) /\
  (read_flag rd = TMC429_READ /\ read_flag rm_rd = TMC429_READ) /\
  (address_bytes (sent T (Write429Bytes (logged T) Address Bytes) s) = [Address] /\
   address_bytes (sent T (Write429Datagram (logged T) Address HighByte MidByte LowByte) s)
     = [Address] /\
   address_bytes (sent T (Write429Zero (logged T) Address) s) = [Address] /\
   address_bytes (sent T (Write429Short (logged T) Address Value) s) = [Address] /\
   address_bytes (sent T (Write429Int (logged T) Address Value) s) = [Address]) /\
  read_flag rm_wr = read_flag (TMC429_IDX_REFCONF_RM Axis).
Proof.
  intros HR rd rm_rd rm_wr. subst rd rm_rd rm_wr.
  split; [| split; [| split]].
  - repeat split; spi_run; reflexivity.
  - split; apply read_flag_set; assumption.
  - repeat split; spi_run; reflexivity.
  - apply read_flag_u8. assumption.
Qed.

Lemma all_bytes_complete (x : Z) : is_u8 x -> In x all_bytes.
Proof.
  unfold is_u8, all_bytes. intros Hx.
  rewrite <- (Z2Nat.id x) by lia.
  apply in_map, in_seq. lia.
Qed.

Lemma int12_table :
  forallb (fun b2 => forallb (int12_table_ok b2) all_bytes) all_bytes = true.
Proof. vm_compute. reflexivity. Qed.

Lemma int12_of_cases (st b1 b2 b3 : Z) :
  is_u8 b2 -> is_u8 b3 ->
  int12_of (Buf4 st b1 b2 b3) =
  if (b2 <? 16) || Z.testbit b2 3 then sign_extend12 (256 * b2 + b3)
  else 256 * b2 + b3.
Proof.
  intros H2 H3.
  pose proof int12_table as Ht.
  rewrite forallb_forall in Ht.
  specialize (Ht b2 (all_bytes_complete b2 H2)).
  rewrite forallb_forall in Ht.
  specialize (Ht b3 (all_bytes_complete b3 H3)).
  unfold int12_table_ok in Ht. apply Z.eqb_eq in Ht. exact Ht.
Qed.

(** Read429Int12 on a 12 bit register: when the device sends zeros above
    the field, the result is the sign extension of the field. *)
Lemma Read429Int12_field {H : Header} (T : Transport) (s : Bus T) (junk : buf4)
    (Address st b1 b2 b3 : Z) :
  result T (ReadWrite429 T (Buf4 (u8 (Z.lor Address TMC429_READ))
                                 (at1 junk) (at2 junk) (at3 junk))) s = Buf4 st b1 b2 b3 ->
  b2 < 16 ->
  result T (Read429Int12 T junk Address) s = sign_extend12 (256 * b2 + b3).
Proof.
  intros Hread Hb2.
  assert (is_u8 b2 /\ is_u8 b3) as [H2 H3].
  { revert Hread. spi_run. intros Hread. inversion Hread; subst.
    split; apply u8_is_u8. }
  assert (result T (Read429Int12 T junk Address) s = int12_of (Buf4 st b1 b2 b3)) as ->.
  { revert Hread. spi_run. intros Hread. inversion Hread; subst. reflexivity. }
  rewrite int12_of_cases by assumption.
  destruct (b2 <? 16) eqn:E; [reflexivity | apply Z.ltb_ge in E; lia].
Qed.

(** C4, at the payload bytes (0x10, 0x00) and at the two examples of the
    claim: the sign extension of the low 12 bits of 0x1000 is 0, and
    Read429Int12 returns 4096, since nothing clears bits 12 to 15 when
    bit 11 is clear; (0x0F, 0xFF) does decode to -1 and (0x00, 0x01)
    to 1. *)
Theorem Read429Int12_keeps_bits_above_field :
  result scripted (Read429Int12 (H := datasheet) scripted (Buf4 0 0 0 0) 14) [128; 0; 16; 0]
    = 4096 /\
  sign_extend12 (256 * 16 + 0) = 0 /\
  result scripted (Read429Int12 (H := datasheet) scripted (Buf4 0 0 0 0) 14) [128; 0; 15; 255]
    = -1 /\
  result scripted (Read429Int12 (H := datasheet) scripted (Buf4 0 0 0 0) 14) [128; 0; 0; 1]
    = 1.
Proof. repeat split. Qed.

(** ** The search of SetAMax

    A mantissa that has [prec] digits already is not rounded. *)
Lemma binary_round_aux_canonical (prec emax : Z) (s : bool) (m : positive) (e : Z) :
  Zpos (digits2_pos m) = prec ->
  3 - emax - prec <= e <= emax - prec ->
  binary_round_aux prec emax s (Zpos m) e loc_Exact = S754_finite s m e.
Proof.
  intros Hd He.
  unfold binary_round_aux, shr_fexp, fexp, emin. cbn [Zdigits2 shr_record_of_loc].
  rewrite Hd.
  replace (Z.max (prec + e - prec) (3 - emax - prec) - e) with 0 by lia.
  cbn [shr shr_m loc_of_shr_record round_nearest_even Zdigits2].
  rewrite Hd.
  replace (Z.max (prec + e - prec) (3 - emax - prec) - e) with 0 by lia.
  cbn [shr shr_m].
  destruct (Z.leb_spec e (emax - prec)); [reflexivity | lia].
Qed.

Lemma dmul_pow2 (s : bool) (m : positive) (e t : Z) :
  digits2_pos m = 53%positive ->
  -1074 <= e + t <= 971 ->
  dmul (S754_finite s m e) (S754_finite false 4503599627370496 (t - 52)) = S754_finite s m (e + t).
Proof.
  intros Hd He.
  unfold dmul, SFmul. rewrite xorb_false_r.
  rewrite Pos.mul_comm. cbn [Pos.mul].
  unfold binary_round_aux at 1. unfold shr_fexp at 1. unfold fexp, emin.
  cbn [Zdigits2 digits2_pos shr_record_of_loc]. rewrite Hd. cbn [Pos.succ].
  replace (Z.max (105 + (e + (t - 52)) - 53) (3 - 1024 - 53) - (e + (t - 52))) with 52 by lia.
  cbn [shr iter_pos shr_1 orb shr_m loc_of_shr_record round_nearest_even].
  replace (e + (t - 52) + 52) with (e + t) by lia.
  unfold shr_fexp, fexp, emin. cbn [Zdigits2 shr_record_of_loc]. rewrite Hd.
  replace (Z.max (53 + (e + t) - 53) (3 - 1024 - 53) - (e + t)) with 0 by lia.
  cbn [shr shr_m].
  destruct (Z.leb_spec (e + t) (1024 - 53)); [reflexivity | lia].
Qed.

Lemma double_of_float_normal (s : bool) (m : positive) (e : Z) :
  digits2_pos m = 24%positive ->
  -1045 <= e <= 1000 ->
  double_of_float (S754_finite s m e) =
  S754_finite s (Pos.iter xO m 29) (e - 29).
Proof.
  intros Hd He.
  unfold double_of_float, binary_round, shl_align, fexp, emin. rewrite Hd.
  replace (Z.max (24 + e - 53) (3 - 1024 - 53)) with (e - 29) by lia.
  replace (e - 29 - e) with (-29) by lia.
  apply binary_round_aux_canonical.
  - cbn [Pos.iter digits2_pos]. rewrite Hd. reflexivity.
  - lia.
Qed.

Lemma d_8_eq : d_8 = S754_finite false 4503599627370496 (3 - 52).
Proof. reflexivity. Qed.

Lemma double_of_pow2 (k : Z) :
  In k pdiv_range ->
  double_of_int (Z.shiftl 1 k) = S754_finite false 4503599627370496 (k - 52).
Proof.
  intros Hk. cbv [pdiv_range map seq Z.of_nat Pos.of_succ_nat Pos.succ] in Hk.
  repeat (destruct Hk as [<- | Hk]; [reflexivity |]). contradiction.
Qed.

Lemma product_exact (m : positive) (e k : Z) :
  digits2_pos m = 24%positive ->
  -149 <= e <= 104 ->
  In k pdiv_range ->
  dmul (dmul (double_of_float (S754_finite false m e)) d_8) (double_of_int (Z.shiftl 1 k))
  = S754_finite false (Pos.iter xO m 29) (e - 29 + 3 + k).
Proof.
  intros Hd He Hk.
  assert (0 <= k <= 13) as Hk'.
  { cbv [pdiv_range map seq Z.of_nat Pos.of_succ_nat Pos.succ] in Hk.
    repeat (destruct Hk as [<- | Hk]; [lia |]). contradiction. }
  assert (digits2_pos (Pos.iter xO m 29) = 53%positive) as Hd'.
  { cbn [Pos.iter digits2_pos]. rewrite Hd. reflexivity. }
  rewrite double_of_float_normal by (assumption || lia).
  rewrite d_8_eq, dmul_pow2 by (assumption || lia).
  rewrite double_of_pow2, dmul_pow2 by (assumption || lia).
  reflexivity.
Qed.



Lemma Qfloor_dyadic (m : positive) (z : Z) :
  Qfloor (inject_Z (Zpos m) * Qpower (inject_Z 2) z)%Q =
  if (0 <=? z)%Z then (Zpos m * 2 ^ z)%Z else (Zpos m / 2 ^ (- z))%Z.
Proof.
  destruct (Z.leb_spec 0 z) as [Hz | Hz].
  - rewrite <- Zpower_Qpower by assumption.
    rewrite <- inject_Z_mult. apply Qfloor_Z.
  - assert (0 < 2 ^ (- z))%Z as Hpos by (apply Z.pow_pos_nonneg; lia).
    destruct (2 ^ (- z))%Z as [| P | P] eqn:EP; try lia.
    assert (inject_Z (Zpos m) * Qpower (inject_Z 2) z == Zpos m # P)%Q as ->.
    { rewrite (Qmake_Qdiv (Zpos m) P), <- EP.
      rewrite Zpower_Qpower by lia.
      replace z with (- - z)%Z at 1 by lia.
      rewrite Qpower_opp. reflexivity. }
    reflexivity.
Qed.



Lemma iter_xO_29 (m : positive) : Zpos (Pos.iter xO m 29) = Zpos m * 2 ^ 29.
Proof.
  change (Pos.iter xO m 29) with (536870912 * m)%positive.
  rewrite Pos2Z.inj_mul. change (2 ^ 29) with 536870912. lia.
Qed.

Lemma trunc_dyadic (m : positive) (z : Z) :
  (if 0 <=? z - 29 then Zpos m * 2 ^ 29 * 2 ^ (z - 29)
   else Zpos m * 2 ^ 29 / 2 ^ (- (z - 29))) =
  (if 0 <=? z then Zpos m * 2 ^ z else Zpos m / 2 ^ (- z)).
Proof.
  destruct (Z.leb_spec 0 (z - 29)) as [H1 | H1].
  - destruct (Z.leb_spec 0 z); [| lia].
    rewrite <- Z.mul_assoc, <- Z.pow_add_r by lia. f_equal. f_equal. lia.
  - destruct (Z.leb_spec 0 z) as [H2 | H2].
    + replace (2 ^ 29) with (2 ^ z * 2 ^ (- (z - 29))).
      * rewrite Z.mul_assoc. apply Z.div_mul.
        apply Z.pow_nonzero; lia.
      * rewrite <- Z.pow_add_r by lia. f_equal. lia.
    + replace (2 ^ (- (z - 29))) with (2 ^ (- z) * 2 ^ 29).
      * apply Z.div_mul_cancel_r; apply Z.pow_nonzero; lia.
      * rewrite <- Z.pow_add_r by lia. f_equal. lia.
Qed.


Lemma pdiv_range_bounds (k : Z) : In k pdiv_range <-> 0 <= k <= 13.
Proof.
  unfold pdiv_range. rewrite in_map_iff. split.
  - intros (n & <- & Hn). apply in_seq in Hn. lia.
  - intros Hk. exists (Z.to_nat k). split; [lia | apply in_seq; lia].
Qed.

(** The product [p_reduced * 8.0 * (1<<pdiv)] is exact, so its integer
    part is the floor of the exact product. *)
Lemma trunc_product (m : positive) (e k : Z) :
  digits2_pos m = 24%positive ->
  -149 <= e <= 104 ->
  In k pdiv_range ->
  trunc (dmul (dmul (double_of_float (S754_finite false m e)) d_8)
              (double_of_int (Z.shiftl 1 k)))
  = Some (pmul_exact (S754_finite false m e) k + 128).
Proof.
  intros Hd He Hk.
  assert (0 <= k <= 13) as Hk' by (apply pdiv_range_bounds; assumption).
  rewrite product_exact by assumption.
  unfold trunc, pmul_exact, SF2Q. f_equal.
  assert (inject_Z (Zpos m) * Qpower (inject_Z 2) e * 8 * inject_Z (2 ^ k)
          == inject_Z (Zpos m) * Qpower (inject_Z 2) (e + 3 + k))%Q as ->.
  { rewrite !Qpower_plus by discriminate.
    rewrite <- (Zpower_Qpower 2 k) by lia.
    change (Qpower (inject_Z 2) 3) with 8%Q. ring. }
  rewrite Qfloor_dyadic, iter_xO_29.
  replace (e - 29 + 3 + k) with (e + 3 + k - 29) by lia.
  rewrite trunc_dyadic. lia.
Qed.

Lemma trunc_product_zero (k : Z) :
  In k pdiv_range ->
  trunc (dmul (dmul (double_of_float (S754_zero false)) d_8)
              (double_of_int (Z.shiftl 1 k)))
  = Some (pmul_exact (S754_zero false) k + 128).
Proof.
  intros Hk. rewrite double_of_pow2 by assumption.
  unfold pmul_exact, SF2Q.
  assert (0 * 8 * inject_Z (2 ^ k) == 0)%Q as -> by ring.
  reflexivity.
Qed.

Lemma pmul_exact_lower (x : spec_float) (k : Z) :
  float_normal_or_zero x = true -> 0 <= k -> -128 <= pmul_exact x k.
Proof.
  intros Hx Hk. unfold pmul_exact.
  enough (0 <= Qfloor (SF2Q x * 8 * inject_Z (2 ^ k)))%Z by lia.
  rewrite <- (Qfloor_Z 0). apply Qfloor_resp_le.
  assert (0 <= inject_Z (2 ^ k))%Q as H2.
  { change 0%Q with (inject_Z 0). rewrite <- Zle_Qle. apply Z.pow_nonneg. lia. }
  assert (0 <= SF2Q x)%Q as H1.
  { destruct x as [[|] | | | [|] m e]; try discriminate Hx; unfold SF2Q.
    - apply Qle_refl.
    - apply Qmult_le_0_compat; [discriminate |].
      apply Qpower_0_le. discriminate. }
  apply Qmult_le_0_compat; [| assumption].
  apply Qmult_le_0_compat; [assumption | discriminate].
Qed.

(** What the code computes for [pmul]: the exact candidate whenever the
    product is an [int32_t], and otherwise what the target makes of the
    conversion. *)
Lemma amax_pmul_exact {G : Target} (x : spec_float) (k : Z) :
  float_normal_or_zero x = true ->
  In k pdiv_range ->
  amax_pmul x k =
  if pmul_exact x k + 128 <=? 2147483647 then pmul_exact x k
  else s32 (cvt_out_of_range - 128).
Proof.
  intros Hx Hk.
  assert (0 <= k <= 13) as Hk' by (apply pdiv_range_bounds; assumption).
  pose proof (pmul_exact_lower x k Hx (proj1 Hk')) as Hlow.
  assert (trunc (dmul (dmul (double_of_float x) d_8) (double_of_int (Z.shiftl 1 k)))
          = Some (pmul_exact x k + 128)) as Ht.
  { destruct x as [[|] | | | [|] m e]; try discriminate Hx.
    - apply trunc_product_zero; assumption.
    - cbn [float_normal_or_zero] in Hx.
      apply andb_prop in Hx. destruct Hx as [Hx He2].
      apply andb_prop in Hx. destruct Hx as [Hd He1].
      apply Pos.eqb_eq in Hd. apply Z.leb_le in He1, He2.
      apply trunc_product; (assumption || lia). }
  unfold amax_pmul, int32_of_double. rewrite Ht.
  destruct (Z.leb_spec (-2147483648) (pmul_exact x k + 128)); [| lia].
  cbn [andb].
  destruct (Z.leb_spec (pmul_exact x k + 128) 2147483647); [| reflexivity].
  unfold s32. Z.div_mod_to_equations. lia.
Qed.

Lemma p_reduced_table :
  forallb (fun a => forallb (p_reduced_table_ok a) div_diffs) amax_inputs = true.
Proof. vm_cast_no_check (eq_refl true). Qed.

Lemma amax_p_distance (a pd rd : Z) :
  amax_p a pd rd = if rd >=? pd then amax_p a 0 (rd - pd) else amax_p a (pd - rd) 0.
Proof.
  unfold amax_p.
  destruct (rd >=? pd) eqn:E.
  - rewrite Z.geb_leb in E. apply Z.leb_le in E.
    destruct (Z.geb_spec (rd - pd) 0); [| lia].
    rewrite Z.sub_0_r. reflexivity.
  - rewrite Z.geb_leb in E. apply Z.leb_gt in E.
    destruct (Z.geb_spec 0 (pd - rd)); [lia |].
    rewrite Z.sub_0_r. reflexivity.
Qed.

Lemma amax_masked_range (AMax : Z) : 0 <= amax_masked AMax <= 2047.
Proof.
  unfold amax_masked.
  assert (Z.land AMax 2047 = AMax mod 2048) as ->
    by (change 2047 with (Z.ones 11); apply Z.land_ones; lia).
  pose proof (Z.mod_pos_bound AMax 2048). lia.
Qed.

Lemma pulse_div_range (b : Z) : is_u8 b -> 0 <= pulse_div_of b <= 15.
Proof.
  unfold is_u8, pulse_div_of. intros Hb. rewrite Z.shiftr_div_pow2 by lia.
  change (2 ^ 4) with 16.
  pose proof (Z.div_le_lower_bound b 16 0). pose proof (Z.div_lt_upper_bound b 16 16).
  lia.
Qed.

Lemma ramp_div_range (b : Z) : 0 <= ramp_div_of b <= 15.
Proof.
  unfold ramp_div_of.
  assert (Z.land b 15 = b mod 16) as ->
    by (change 15 with (Z.ones 4); apply Z.land_ones; lia).
  pose proof (Z.mod_pos_bound b 16). lia.
Qed.

Lemma in_range_list (n : nat) (x : Z) : 0 <= x < Z.of_nat n -> In x (map Z.of_nat (seq 0 n)).
Proof.
  intros Hx. rewrite <- (Z2Nat.id x) by lia. apply in_map, in_seq. lia.
Qed.

Lemma amax_inputs_complete (x : Z) : 0 <= x <= 2047 -> In x amax_inputs.
Proof.
  intros Hx. apply (in_range_list 2048). change (Z.of_nat 2048) with 2048. lia.
Qed.

Lemma div_diffs_complete (x : Z) : 0 <= x <= 15 -> In x div_diffs.
Proof.
  intros Hx. apply (in_range_list 16). change (Z.of_nat 16) with 16. lia.
Qed.

(** On every input the [float] [p_reduced] is zero or a normal number. *)
Lemma p_reduced_normal_or_zero (AMax PulseRampDiv : Z) :
  is_u8 PulseRampDiv ->
  float_normal_or_zero
    (amax_p_reduced (amax_p (amax_masked AMax) (pulse_div_of PulseRampDiv)
                            (ramp_div_of PulseRampDiv))) = true.
Proof.
  intros Hb.
  pose proof (amax_masked_range AMax) as Ha.
  pose proof (pulse_div_range _ Hb) as Hp.
  pose proof (ramp_div_range PulseRampDiv) as Hr.
  pose proof p_reduced_table as Ht. rewrite forallb_forall in Ht.
  specialize (Ht (amax_masked AMax) (amax_inputs_complete _ Ha)).
  rewrite forallb_forall in Ht.
  rewrite amax_p_distance.
  destruct (ramp_div_of PulseRampDiv >=? pulse_div_of PulseRampDiv) eqn:E;
    rewrite Z.geb_leb in E; [apply Z.leb_le in E | apply Z.leb_gt in E].
  - assert (0 <= ramp_div_of PulseRampDiv - pulse_div_of PulseRampDiv <= 15) as Hd by lia.
    specialize (Ht _ (div_diffs_complete _ Hd)).
    unfold p_reduced_table_ok in Ht. apply andb_prop in Ht. apply Ht.
  - assert (0 <= pulse_div_of PulseRampDiv - ramp_div_of PulseRampDiv <= 15) as Hd by lia.
    specialize (Ht _ (div_diffs_complete _ Hd)).
    unfold p_reduced_table_ok in Ht. apply andb_prop in Ht. apply Ht.
Qed.

(** The loop keeps the last candidate of its range that is a multiplier,
    and the start value when there is none. *)
Lemma amax_search_last {G : Target} (x : spec_float) (l : list Z) (best : Z * Z) :
  fold_left (amax_step x) l best =
  match find (fun k => pmul_ok (amax_pmul x k)) (rev l) with
  | Some k => (amax_pmul x k + 128, k)
  | None => best
  end.
Proof.
  induction l as [| a l IH] using rev_ind.
  - reflexivity.
  - rewrite fold_left_app, rev_unit. cbn [fold_left find].
    unfold amax_step at 1. rewrite IH.
    destruct (pmul_ok (amax_pmul x a)); reflexivity.
Qed.

Lemma find_first_of_descending (f : Z -> bool) (l : list Z) (x : Z) :
  StronglySorted (fun a b => b <= a) l ->
  find f l = Some x ->
  In x l /\ f x = true /\ forall y, In y l -> f y = true -> y <= x.
Proof.
  induction 1 as [| a l Hs IH Ha]; [discriminate |].
  cbn [find]. destruct (f a) eqn:Efa.
  - intros [= <-]. split; [left; reflexivity | split; [assumption |]].
    intros y [<- | Hy] _; [lia |].
    rewrite Forall_forall in Ha. apply Ha. assumption.
  - intros Hfind. destruct (IH Hfind) as (Hin & Hfx & Hmax).
    split; [right; assumption | split; [assumption |]].
    intros y [<- | Hy] Hfy; [congruence | apply Hmax; assumption].
Qed.

Lemma pdiv_range_descending : StronglySorted (fun a b => b <= a) (rev pdiv_range).
Proof.
  cbv [pdiv_range rev map seq app Z.of_nat Pos.of_succ_nat Pos.succ].
  repeat (constructor; [| repeat (constructor; [lia |]); constructor]).
  constructor.
Qed.

(** The search in terms of the multipliers the code computes. *)
Lemma amax_search_spec {G : Target} (x : spec_float) :
  (exists pd,
      In pd pdiv_range /\ pmul_ok (amax_pmul x pd) = true /\
      (forall k, In k pdiv_range -> pmul_ok (amax_pmul x k) = true -> k <= pd) /\
      amax_search x = (amax_pmul x pd + 128, pd)) \/
  ((forall k, In k pdiv_range -> pmul_ok (amax_pmul x k) = false) /\
   amax_search x = (-1, -1)).
Proof.
  unfold amax_search. rewrite amax_search_last.
  destruct (find (fun k => pmul_ok (amax_pmul x k)) (rev pdiv_range)) as [pd |] eqn:E.
  - left. exists pd.
    destruct (find_first_of_descending _ _ _ pdiv_range_descending E) as (Hin & Hok & Hmax).
    split; [apply in_rev; assumption | split; [assumption | split; [| reflexivity]]].
    intros k Hk. apply Hmax. apply in_rev in Hk. assumption.
  - right. split; [| reflexivity].
    intros k Hk. apply in_rev in Hk.
    apply (find_none _ _ E k Hk).
Qed.

(** The code's test of a candidate agrees with the test of the exact
    candidate, on a target whose out-of-range conversion is no multiplier. *)
Lemma pmul_ok_exact {G : Target} (x : spec_float) (k : Z) :
  cvt_is_no_multiplier G ->
  float_normal_or_zero x = true ->
  In k pdiv_range ->
  (pmul_ok (amax_pmul x k) = true <-> 0 <= pmul_exact x k <= 127) /\
  (0 <= pmul_exact x k <= 127 -> amax_pmul x k = pmul_exact x k).
Proof.
  intros HG Hx Hk. rewrite (amax_pmul_exact x k Hx Hk).
  destruct (Z.leb_spec (pmul_exact x k + 128) 2147483647) as [Hle | Hgt].
  - split; [| reflexivity].
    unfold pmul_ok. rewrite andb_true_iff, Z.leb_le, Z.leb_le. reflexivity.
  - unfold cvt_is_no_multiplier in HG. rewrite HG.
    split; [split; [discriminate | lia] | lia].
Qed.

(** C1: on every AMax and every divider byte the search walks pdiv over
    0..13 with pmul = floor(p_reduced * 8 * 2^pdiv) - 128, and it records
    pm = pmul + 128 and pd = pdiv of the largest pdiv whose pmul is in
    0..127 (a later candidate replaces an earlier one); with no such pdiv
    the pair stays (-1, -1).  The conversion of a product beyond INT32_MAX
    is taken to yield a value that is itself no multiplier. *)
Theorem SetAMax_search_keeps_largest_pdiv {G : Target} (AMax PulseRampDiv : Z) :
  cvt_is_no_multiplier G ->
  is_u8 PulseRampDiv ->
  let p_reduced :=
    amax_p_reduced (amax_p (amax_masked AMax) (pulse_div_of PulseRampDiv)
                           (ramp_div_of PulseRampDiv)) in
  let pmul := fun pdiv => Qfloor (SF2Q p_reduced * 8 * inject_Z (2 ^ pdiv)) - 128 in
  let valid := fun pdiv => 0 <= pdiv <= 13 /\ 0 <= pmul pdiv <= 127 in
  (forall pdiv, 0 <= pdiv <= 13 ->
     (pmul_ok (amax_pmul p_reduced pdiv) = true <-> 0 <= pmul pdiv <= 127) /\
     (0 <= pmul pdiv <= 127 -> amax_pmul p_reduced pdiv = pmul pdiv)) /\
  ((exists pd, valid pd /\ (forall pdiv, valid pdiv -> pdiv <= pd) /\
               amax_solve AMax PulseRampDiv = (pmul pd + 128, pd)) \/
   ((forall pdiv, ~ valid pdiv) /\ amax_solve AMax PulseRampDiv = (-1, -1))).
Proof.
  intros HG Hb p_reduced pmul valid.
  pose proof (p_reduced_normal_or_zero AMax PulseRampDiv Hb) as Hx.
  fold p_reduced in Hx.
  assert (forall pdiv, 0 <= pdiv <= 13 ->
            (pmul_ok (amax_pmul p_reduced pdiv) = true <-> 0 <= pmul pdiv <= 127) /\
            (0 <= pmul pdiv <= 127 -> amax_pmul p_reduced pdiv = pmul pdiv)) as Hcmp.
  { intros pdiv Hp. apply (pmul_ok_exact p_reduced pdiv HG Hx).
    apply pdiv_range_bounds. assumption. }
  split; [exact Hcmp |].
  unfold amax_solve. fold p_reduced.
  destruct (amax_search_spec p_reduced) as [(pd & Hin & Hok & Hmax & Heq) | (Hnone & Heq)].
  - left. exists pd. apply pdiv_range_bounds in Hin.
    destruct (Hcmp pd Hin) as [Hiff Hval]. apply (proj1 Hiff) in Hok.
    split; [split; assumption | split].
    + intros pdiv [Hp Hv]. apply Hmax; [apply pdiv_range_bounds; assumption |].
      apply (proj1 (Hcmp pdiv Hp)). assumption.
    + rewrite Heq, (Hval Hok). reflexivity.
  - right. split; [| exact Heq].
    intros pdiv [Hp Hv]. apply (proj1 (Hcmp pdiv Hp)) in Hv.
    rewrite Hnone in Hv by (apply pdiv_range_bounds; assumption). discriminate.
Qed.

Lemma SetAMax_search_keeps_largest_pdiv_witness :
  let p_reduced :=
    amax_p_reduced (amax_p (amax_masked 1000) (pulse_div_of 118) (ramp_div_of 118)) in
  let pmul := fun pdiv => Qfloor (SF2Q p_reduced * 8 * inject_Z (2 ^ pdiv)) - 128 in
  let valid := fun pdiv => 0 <= pdiv <= 13 /\ 0 <= pmul pdiv <= 127 in
  (exists pd, valid pd /\ (forall pdiv, valid pdiv -> pdiv <= pd) /\
              amax_solve (G := x86) 1000 118 = (pmul pd + 128, pd)) \/
  ((forall pdiv, ~ valid pdiv) /\ amax_solve (G := x86) 1000 118 = (-1, -1)).
Proof.
  refine (proj2 (SetAMax_search_keeps_largest_pdiv (G := x86) 1000 118 _ _)).
  - reflexivity.
  - unfold is_u8. lia.
Defined.

(** ** The telegrams of SetAMax *)

(** SetAMax sends three telegrams: the read of the divider register, the
    write of PMUL and PDIV, and the write of the masked AMax; and it
    returns 0. *)
Lemma SetAMax_sent {G : Target} {H : Header} (T : Transport) (s : Bus T)
    (junk : buf4) (Motor AMax st h m l : Z) :
  result T (ReadWrite429 T (Buf4 (u8 (Z.lor (u8 (TMC429_IDX_PULSEDIV_RAMPDIV Motor))
                                            TMC429_READ))
                                 (at1 junk) (at2 junk) (at3 junk))) s = Buf4 st h m l ->
  is_u8 m /\
  sent T (SetAMax (logged T) junk Motor AMax) s =
    telegram (u8 (Z.lor (u8 (TMC429_IDX_PULSEDIV_RAMPDIV Motor)) TMC429_READ))
             (at1 junk) (at2 junk) (at3 junk) ++
    telegram (u8 (TMC429_IDX_PMUL_PDIV Motor)) 0
             (u8 (fst (amax_solve AMax m))) (u8 (snd (amax_solve AMax m))) ++
    telegram (u8 (TMC429_IDX_AMAX Motor)) 0
             ((amax_masked AMax / 256) mod 256) (amax_masked AMax mod 256).
Proof.
  spi_run. intros Hread. inversion Hread; subst.
  split; [apply u8_is_u8 |].
  rewrite (shiftr_byte _ 8), low_byte by lia. reflexivity.
Qed.

Lemma SetAMax_returns_0 {G : Target} {H : Header} (T : Transport) (s : Bus T)
    (junk : buf4) (Motor AMax : Z) :
  result T (SetAMax T junk Motor AMax) s = 0.
Proof. spi_run. reflexivity. Qed.

(** C2: when no pdiv of 0..13 gives a pmul in 0..127, pm and pd stay at
    -1 and SetAMax writes 0xFF, the truncation of -1 to a byte, as the
    PMUL and as the PDIV byte; and SetAMax returns 0 on every input. *)
Theorem SetAMax_sentinel_bytes {G : Target} {H : Header} (T : Transport) (s : Bus T)
    (junk : buf4) (Motor AMax st h m l : Z) :
  result T (ReadWrite429 T (Buf4 (u8 (Z.lor (u8 (TMC429_IDX_PULSEDIV_RAMPDIV Motor))
                                            TMC429_READ))
                                 (at1 junk) (at2 junk) (at3 junk))) s = Buf4 st h m l ->
  result T (SetAMax T junk Motor AMax) s = 0 /\
  ((forall pdiv, 0 <= pdiv <= 13 ->
      pmul_ok (amax_pmul (amax_p_reduced (amax_p (amax_masked AMax) (pulse_div_of m)
                                                 (ramp_div_of m))) pdiv) = false) ->
   amax_solve AMax m = (-1, -1) /\
   nth 1 (telegrams (sent T (SetAMax (logged T) junk Motor AMax) s)) [] =
     [u8 (TMC429_IDX_PMUL_PDIV Motor); 0; 255; 255]).
Proof.
  intros Hread. split; [apply SetAMax_returns_0 |].
  intros Hnone.
  assert (amax_solve AMax m = (-1, -1)) as Hsolve.
  { unfold amax_solve.
    destruct (amax_search_spec
                (amax_p_reduced (amax_p (amax_masked AMax) (pulse_div_of m) (ramp_div_of m))))
      as [(pd & Hin & Hok & _) | (_ & Heq)]; [| exact Heq].
    rewrite Hnone in Hok by (apply pdiv_range_bounds; assumption). discriminate. }
  split; [exact Hsolve |].
  destruct (SetAMax_sent T s junk Motor AMax st h m l Hread) as [_ ->].
  rewrite Hsolve. reflexivity.
Qed.

Lemma SetAMax_sentinel_bytes_witness :
  result scripted (SetAMax (G := x86) (H := datasheet) scripted (Buf4 0 0 0 0) 0 0)
         [128; 0; 55; 6] = 0 /\
  amax_solve (G := x86) 0 55 = (-1, -1) /\
  nth 1 (telegrams (sent scripted
                      (SetAMax (G := x86) (H := datasheet) (logged scripted) (Buf4 0 0 0 0) 0 0)
                      [128; 0; 55; 6])) [] = [18; 0; 255; 255].
Proof.
  destruct (SetAMax_sentinel_bytes (G := x86) (H := datasheet) scripted [128; 0; 55; 6]
              (Buf4 0 0 0 0) 0 0 128 0 55 6 eq_refl) as [H0 Hs].
  split; [exact H0 |].
  apply Hs. intros pdiv Hp.
  assert (In pdiv pdiv_range) as Hin by (apply pdiv_range_bounds; exact Hp).
  cbv [pdiv_range map seq Z.of_nat Pos.of_succ_nat Pos.succ] in Hin.
  repeat (destruct Hin as [<- | Hin]; [vm_compute; reflexivity |]). contradiction.
Defined.

(** C3, as stated, fails at AMax = 2048: the value used and written is
    0, where the clamp min(2048, 2047) would give 2047. *)
Lemma SetAMax_wraps_above_2047 :
  amax_masked 2048 <> Z.min 2048 2047 /\
  nth 2 (telegrams (sent scripted
                      (SetAMax (G := x86) (H := datasheet) (logged scripted) (Buf4 0 0 0 0) 0 2048)
                      [128; 0; 55; 6])) [] = [12; 0; 0; 0].
Proof. split; [discriminate | reflexivity]. Qed.

(** C3, amended: the acceleration used in the computation of the scale
    factor and written to the AMax register is AMax masked to its low 11
    bits, AMax mod 2048: AMax itself for 0..2047, and wrapped around, not
    saturated, above. *)
Theorem SetAMax_masks_AMax {G : Target} {H : Header} (T : Transport) (s : Bus T)
    (junk : buf4) (Motor AMax st h m l : Z) :
  result T (ReadWrite429 T (Buf4 (u8 (Z.lor (u8 (TMC429_IDX_PULSEDIV_RAMPDIV Motor))
                                            TMC429_READ))
                                 (at1 junk) (at2 junk) (at3 junk))) s = Buf4 st h m l ->
  amax_masked AMax = AMax mod 2048 /\
  (0 <= AMax <= 2047 -> amax_masked AMax = AMax) /\
  amax_solve AMax m =
    amax_search (amax_p_reduced (amax_p (AMax mod 2048) (pulse_div_of m) (ramp_div_of m))) /\
  nth 2 (telegrams (sent T (SetAMax (logged T) junk Motor AMax) s)) [] =
    [u8 (TMC429_IDX_AMAX Motor); 0; (AMax mod 2048) / 256; (AMax mod 2048) mod 256].
Proof.
  intros Hread.
  assert (amax_masked AMax = AMax mod 2048) as Hmask.
  { unfold amax_masked. change 2047 with (Z.ones 11). apply Z.land_ones. lia. }
  split; [exact Hmask | split; [| split]].
  - intros HA. rewrite Hmask. apply Z.mod_small. lia.
  - unfold amax_solve. rewrite Hmask. reflexivity.
  - destruct (SetAMax_sent T s junk Motor AMax st h m l Hread) as [_ ->].
    rewrite Hmask. cbn [telegram telegrams telegrams_from app x_last x_byte nth].
    rewrite (Z.mod_small (AMax mod 2048 / 256)); [reflexivity |].
    pose proof (Z.mod_pos_bound AMax 2048).
    pose proof (Z.div_le_lower_bound (AMax mod 2048) 256 0).
    pose proof (Z.div_lt_upper_bound (AMax mod 2048) 256 256). lia.
Qed.

Lemma SetAMax_masks_AMax_witness :
  amax_masked 3048 = 3048 mod 2048 /\
  (0 <= 3048 <= 2047 -> amax_masked 3048 = 3048) /\
  amax_solve (G := x86) 3048 118 =
    amax_search (G := x86)
      (amax_p_reduced (amax_p (3048 mod 2048) (pulse_div_of 118) (ramp_div_of 118))) /\
  nth 2 (telegrams (sent scripted
                      (SetAMax (G := x86) (H := datasheet) (logged scripted) (Buf4 9 9 9 9) 1 3048)
                      [5; 0; 118; 0])) [] =
    [u8 (TMC429_IDX_AMAX (Header := datasheet) 1); 0; (3048 mod 2048) / 256;
     (3048 mod 2048) mod 256].
Proof.
  apply (SetAMax_masks_AMax (G := x86) (H := datasheet) scripted [5; 0; 118; 0]
           (Buf4 9 9 9 9) 1 3048 5 0 118 0).
  reflexivity.
Defined.

(** C8, as stated, fails: the byte 0x76 does not decode to pulse_div = 6
    and ramp_div = 7. *)
Lemma divider_byte_0x76_is_not_6_7 :
  ~ (pulse_div_of 118 = 6 /\ ramp_div_of 118 = 7).
Proof. intros [Hp _]. discriminate Hp. Qed.

(** C8, amended: the divider byte 0x76 decodes to pulse_div = 7 (the high
    four bits) and ramp_div = 6 (the low four bits), and with AMax = 1000
    and that byte read from the device SetAMax selects and writes the same
    pair, pm = 247 and pd = 1, whatever the motor, the target, the
    transport, the state of the bus and the rest of the answer. *)
Theorem SetAMax_1000_0x76 :
  pulse_div_of 118 = 7 /\ ramp_div_of 118 = 6 /\
  forall (G : Target) (H : Header) (T : Transport) (s : Bus T)
         (junk : buf4) (Motor st h l : Z),
    result T (ReadWrite429 T (Buf4 (u8 (Z.lor (u8 (TMC429_IDX_PULSEDIV_RAMPDIV Motor))
                                              TMC429_READ))
                                   (at1 junk) (at2 junk) (at3 junk))) s = Buf4 st h 118 l ->
    amax_solve 1000 118 = (247, 1) /\
    nth 1 (telegrams (sent T (SetAMax (logged T) junk Motor 1000) s)) [] =
      [u8 (TMC429_IDX_PMUL_PDIV Motor); 0; 247; 1].
Proof.
  split; [reflexivity | split; [reflexivity |]].
  intros G H T s junk Motor st h l Hread.
  assert (amax_solve 1000 118 = (247, 1)) as Hsolve by (vm_compute; reflexivity).
  split; [exact Hsolve |].
  destruct (SetAMax_sent T s junk Motor 1000 st h 118 l Hread) as [_ ->].
  rewrite Hsolve. reflexivity.
Qed.

Lemma SetAMax_1000_0x76_witness :
  amax_solve (G := saturating) 1000 118 = (247, 1) /\
  nth 1 (telegrams (sent scripted
                      (SetAMax (G := saturating) (H := datasheet) (logged scripted)
                               (Buf4 0 0 0 0) 2 1000)
                      [128; 0; 118; 6])) [] =
    [u8 (TMC429_IDX_PMUL_PDIV (Header := datasheet) 2); 0; 247; 1].
Proof.
  apply (proj2 (proj2 SetAMax_1000_0x76) saturating datasheet scripted [128; 0; 118; 6]
           (Buf4 0 0 0 0) 2 128 0 6).
  reflexivity.
Defined.

Lemma read_flag_discipline_witness :
  address_bytes (sent scripted
                   (Set429RampMode (H := datasheet) (logged scripted) (Buf4 0 0 0 0) 1 2)
                   [128; 1; 15; 0]) = [53; 52] /\
  read_flag (H := datasheet) 53 = 1 /\
  address_bytes (sent scripted (Write429Zero (H := datasheet) (logged scripted) 21)
                      [128; 1; 15; 0]) = [21] /\
  read_flag (H := datasheet) 52 = read_flag (H := datasheet) 52.
Proof.
  destruct (read_flag_discipline (H := datasheet) scripted [128; 1; 15; 0] (Buf4 0 0 0 0)
              21 0 1 2 0 0 0 0 (Buf3 0 0 0))
    as ((_ & _ & _ & _ & Hramp & _) & (_ & Hrd) & (_ & _ & Hzero & _) & Hwr).
  - unfold is_u8. cbn. lia.
  - exact (conj Hramp (conj Hrd (conj Hzero Hwr))).
Defined.

(** * Further properties of the driver *)

(** ** The 24 bit read and the round trips *)

Lemma lor_shiftl_add (hi lo k : Z) :
  0 <= k -> 0 <= lo < 2 ^ k -> Z.lor (Z.shiftl hi k) lo = hi * 2 ^ k + lo.
Proof.
  intros Hk Hlo.
  assert (Z.land (Z.shiftl hi k) lo = 0) as Hdisj.
  { apply Z.bits_inj'. intros n Hn. rewrite Z.land_spec, Z.bits_0.
    destruct (Z.lt_ge_cases n k) as [Hlt | Hge].
    - rewrite Z.shiftl_spec_low by assumption. reflexivity.
    - rewrite <- (Z.mod_small lo (2 ^ k)) by assumption.
      rewrite Z.mod_pow2_bits_high by lia. apply andb_false_r. }
  rewrite <- Z.lxor_lor, <- Z.add_nocarry_lxor by assumption.
  rewrite Z.shiftl_mul_pow2 by assumption. reflexivity.
Qed.

Lemma land_bit_23 (R : Z) :
  0 <= R < 16777216 -> (Z.land R 8388608 =? 0) = (R <? 8388608).
Proof.
  intros HR.
  assert (Z.land R 8388608 = if Z.testbit R 23 then 8388608 else 0) as ->.
  { apply Z.bits_inj'. intros n Hn. rewrite Z.land_spec.
    change 8388608 with (2 ^ 23). rewrite Z.pow2_bits_eqb by lia.
    destruct (Z.eqb_spec 23 n) as [<- | Hne].
    - destruct (Z.testbit R 23); [rewrite Z.pow2_bits_true by lia; reflexivity |].
      rewrite Z.bits_0. reflexivity.
    - rewrite andb_false_r.
      destruct (Z.testbit R 23); [| rewrite Z.bits_0; reflexivity].
      rewrite Z.pow2_bits_false by lia. reflexivity. }
  destruct (Z.testbit R 23) eqn:Eb.
  - apply Z.testbit_true in Eb; [| lia]. change (2 ^ 23) with 8388608 in Eb.
    destruct (Z.ltb_spec R 8388608) as [Hlt | Hge]; [| reflexivity].
    rewrite Z.div_small in Eb by lia. discriminate.
  - destruct (Z.ltb_spec R 8388608) as [Hlt | Hge]; [reflexivity |].
    assert (Z.testbit R 23 = true) as Ht; [| congruence].
    apply Z.testbit_true; [lia |]. change (2 ^ 23) with 8388608.
    replace (R / 8388608) with 1; [reflexivity |].
    apply Z.div_unique with (r := R - 8388608); lia.
Qed.

Lemma int24_of_value (st b1 b2 b3 : Z) :
  is_u8 b1 -> is_u8 b2 -> is_u8 b3 ->
  int24_of (Buf4 st b1 b2 b3) = sign_extend24 (65536 * b1 + 256 * b2 + b3).
Proof.
  unfold is_u8. intros H1 H2 H3.
  unfold int24_of, sign_extend24. cbn [at1 at2 at3].
  replace (Z.shiftl b1 16) with (Z.shiftl (Z.shiftl b1 8) 8)
    by (rewrite Z.shiftl_shiftl by lia; reflexivity).
  rewrite <- Z.shiftl_lor.
  rewrite (lor_shiftl_add b1 b2 8) by (change (2 ^ 8) with 256; lia).
  rewrite lor_shiftl_add by (change (2 ^ 8) with 256; lia).
  change (2 ^ 8) with 256.
  set (R := (b1 * 256 + b2) * 256 + b3).
  assert (0 <= R < 16777216) as HR by (subst R; lia).
  replace (65536 * b1 + 256 * b2 + b3) with R by (subst R; lia).
  rewrite land_bit_23 by assumption.
  rewrite (Z.mod_small R 16777216) by assumption.
  destruct (Z.ltb_spec R 8388608) as [Hlt | Hge]; [reflexivity |].
  rewrite Z.lor_comm. change 4278190080 with (Z.shiftl 255 24).
  rewrite lor_shiftl_add by (change (2 ^ 24) with 16777216; lia).
  change (2 ^ 24) with 16777216. unfold s32.
  Z.div_mod_to_equations. lia.
Qed.

Lemma sign_extend24_range (x : Z) : -8388608 <= sign_extend24 x <= 8388607.
Proof.
  unfold sign_extend24. pose proof (Z.mod_pos_bound x 16777216).
  destruct (Z.ltb_spec (x mod 16777216) 8388608); lia.
Qed.

Lemma ReadWrite429_bytes {H : Header} (T : Transport) (s : Bus T) (W : buf4) :
  is_buf4 (result T (ReadWrite429 T W) s).
Proof.
  spi_run. unfold is_buf4. cbn [at0 at1 at2 at3]. repeat split; apply u8_is_u8.
Qed.

(** X1: whatever the device answers, Read429Int24 returns the 24 bit
    two's complement number whose bytes, most significant first, are the
    three payload bytes that Read429Bytes delivers on the same bus; it lies
    in -2^23 .. 2^23-1. *)
Theorem Read429Int24_decodes {H : Header} (T : Transport) (s : Bus T)
    (junk : buf4) (Address : Z) :
  let Bytes := snd (result T (Read429Bytes T junk Address) s) in
  result T (Read429Int24 T junk Address) s =
    sign_extend24 (65536 * hi Bytes + 256 * mid Bytes + lo Bytes) /\
  -8388608 <= result T (Read429Int24 T junk Address) s <= 8388607.
Proof.
  intros Bytes.
  pose proof (ReadWrite429_bytes T s (Buf4 (u8 (Z.lor Address TMC429_READ))
                                          (at1 junk) (at2 junk) (at3 junk)))
    as (_ & H1 & H2 & H3).
  assert (result T (Read429Int24 T junk Address) s =
          sign_extend24 (65536 * hi Bytes + 256 * mid Bytes + lo Bytes)) as Heq.
  { subst Bytes. revert H1 H2 H3. spi_run. cbn [at1 at2 at3 hi mid lo].
    intros H1 H2 H3. apply int24_of_value; assumption. }
  split; [exact Heq |]. rewrite Heq. apply sign_extend24_range.
Qed.

Lemma telegram_inj {H : Header} (a b c d a' b' c' d' : Z) :
  telegram a b c d = telegram a' b' c' d' -> a = a' /\ b = b' /\ c = c' /\ d = d'.
Proof. unfold telegram. intros [= -> -> -> ->]. repeat split. Qed.

Lemma sign_extend24_small (V : Z) : -8388608 <= V <= 8388607 -> sign_extend24 V = V.
Proof.
  intros HV. unfold sign_extend24.
  destruct (Z.ltb_spec (V mod 16777216) 8388608); Z.div_mod_to_equations; lia.
Qed.

(** X2: a device that answers a 24 bit read with the payload that
    Write429Int sent for the value V makes Read429Int24 return V wrapped to
    24 bit two's complement, and V itself for V in -2^23 .. 2^23-1. *)
Theorem Write429Int_Read429Int24_round_trip {H : Header} (T T' : Transport)
    (s : Bus T) (s' : Bus T') (junk : buf4) (a a' V st p1 p2 p3 : Z) :
  sent T (Write429Int (logged T) a V) s = telegram a p1 p2 p3 ->
  result T' (ReadWrite429 T' (Buf4 (u8 (Z.lor a' TMC429_READ))
                                   (at1 junk) (at2 junk) (at3 junk))) s' = Buf4 st p1 p2 p3 ->
  result T' (Read429Int24 T' junk a') s' = sign_extend24 V /\
  (-8388608 <= V <= 8388607 -> result T' (Read429Int24 T' junk a') s' = V).
Proof.
  intros Hsent Hread.
  rewrite Write429Int_sent in Hsent.
  apply telegram_inj in Hsent. destruct Hsent as (_ & <- & <- & <-).
  assert (result T' (Read429Int24 T' junk a') s' = sign_extend24 V) as Heq.
  { assert (result T' (Read429Int24 T' junk a') s' =
            int24_of (Buf4 st ((V / 65536) mod 256) ((V / 256) mod 256) (V mod 256))) as ->.
    { revert Hread. spi_run. intros Hread. rewrite Hread. reflexivity. }
    rewrite int24_of_value by (unfold is_u8; Z.div_mod_to_equations; lia).
    assert (65536 * ((V / 65536) mod 256) + 256 * ((V / 256) mod 256) + V mod 256
            = V mod 16777216) as -> by (Z.div_mod_to_equations; lia).
    unfold sign_extend24. rewrite Z.mod_mod by lia. reflexivity. }
  split; [exact Heq |].
  intros HV. rewrite Heq. apply sign_extend24_small. assumption.
Qed.

Lemma Write429Int_Read429Int24_round_trip_witness :
  result scripted (Read429Int24 (H := datasheet) scripted (Buf4 0 0 0 0) 2) [128; 255; 255; 255]
    = sign_extend24 (-1) /\
  (-8388608 <= -1 <= 8388607 ->
   result scripted (Read429Int24 (H := datasheet) scripted (Buf4 0 0 0 0) 2) [128; 255; 255; 255]
     = -1).
Proof.
  apply (Write429Int_Read429Int24_round_trip (H := datasheet) loopback scripted tt
           [128; 255; 255; 255] (Buf4 0 0 0 0) 2 2 (-1) 128 255 255 255);
    reflexivity.
Defined.

Lemma int12_payload_ok (V : Z) :
  -2048 <= V <= 2047 ->
  ((V / 256) mod 256 <? 16) || Z.testbit ((V / 256) mod 256) 3 = true.
Proof.
  intros HV.
  assert (V / 256 = -8 \/ V / 256 = -7 \/ V / 256 = -6 \/ V / 256 = -5 \/
          V / 256 = -4 \/ V / 256 = -3 \/ V / 256 = -2 \/ V / 256 = -1 \/
          0 <= V / 256 <= 7) as Hq by (Z.div_mod_to_equations; lia).
  repeat (destruct Hq as [-> | Hq]; [reflexivity |]).
  rewrite Z.mod_small by lia.
  destruct (Z.ltb_spec (V / 256) 16); [reflexivity | lia].
Qed.

(** X3: a device that answers a 12 bit read with the payload that
    Write429Short sent for a value V in -2048..2047 makes Read429Int12
    return V: on these values the sign extension is not disturbed by the
    bits above the field. *)
Theorem Write429Short_Read429Int12_round_trip {H : Header} (T T' : Transport)
    (s : Bus T) (s' : Bus T') (junk : buf4) (a a' V st p1 p2 p3 : Z) :
  -2048 <= V <= 2047 ->
  sent T (Write429Short (logged T) a V) s = telegram a p1 p2 p3 ->
  result T' (ReadWrite429 T' (Buf4 (u8 (Z.lor a' TMC429_READ))
                                   (at1 junk) (at2 junk) (at3 junk))) s' = Buf4 st p1 p2 p3 ->
  result T' (Read429Int12 T' junk a') s' = V.
Proof.
  intros HV Hsent Hread.
  rewrite Write429Short_sent in Hsent.
  apply telegram_inj in Hsent. destruct Hsent as (_ & <- & <- & <-).
  assert (result T' (Read429Int12 T' junk a') s' =
          int12_of (Buf4 st 0 ((V / 256) mod 256) (V mod 256))) as ->.
  { revert Hread. spi_run. intros Hread. rewrite Hread. reflexivity. }
  rewrite int12_of_cases by (unfold is_u8; Z.div_mod_to_equations; lia).
  rewrite int12_payload_ok by assumption.
  unfold sign_extend12.
  destruct (Z.ltb_spec ((256 * ((V / 256) mod 256) + V mod 256) mod 4096) 2048);
    Z.div_mod_to_equations; lia.
Qed.

Lemma Write429Short_Read429Int12_round_trip_witness :
  result scripted (Read429Int12 (H := datasheet) scripted (Buf4 0 0 0 0) 14) [128; 0; 248; 0]
    = -2048.
Proof.
  apply (Write429Short_Read429Int12_round_trip (H := datasheet) loopback scripted tt
           [128; 0; 248; 0] (Buf4 0 0 0 0) 14 14 (-2048) 128 0 248 0);
    [lia | reflexivity | reflexivity].
Defined.

(** ** Whole operations on the recorded bus *)

Lemma Write429Datagram_run {H : Header} (T : Transport) (s : Bus T) (log : list xfer)
    (a b c d : Z) :
  exists s', run (Write429Datagram (logged T) a b c d) (s, log) =
             (tt, (s', log ++ telegram a b c d)).
Proof. spi_run. eexists. rewrite <- !app_assoc. reflexivity. Qed.

Lemma Write429Zero_run {H : Header} (T : Transport) (s : Bus T) (log : list xfer) (a : Z) :
  exists s', run (Write429Zero (logged T) a) (s, log) = (tt, (s', log ++ telegram a 0 0 0)).
Proof. spi_run. eexists. rewrite <- !app_assoc. reflexivity. Qed.

Lemma Write429Short_run {H : Header} (T : Transport) (s : Bus T) (log : list xfer)
    (a V : Z) :
  exists s', run (Write429Short (logged T) a V) (s, log) =
             (tt, (s', log ++ telegram a 0 ((V / 256) mod 256) (V mod 256))).
Proof.
  spi_run. eexists. rewrite <- !app_assoc, (shiftr_byte V 8), low_byte by lia.
  reflexivity.
Qed.

Lemma Write429Int_run {H : Header} (T : Transport) (s : Bus T) (log : list xfer)
    (a V : Z) :
  exists s', run (Write429Int (logged T) a V) (s, log) =
             (tt, (s', log ++ telegram a ((V / 65536) mod 256) ((V / 256) mod 256)
                                       (V mod 256))).
Proof.
  spi_run. eexists.
  rewrite <- !app_assoc, (shiftr_byte V 8), (shiftr_byte V 16), low_byte by lia.
  reflexivity.
Qed.

Lemma Set429RampMode_run {H : Header} (T : Transport) (s : Bus T) (log : list xfer)
    (junk : buf4) (Axis Mode : Z) :
  exists s' st h m l,
    result T (ReadWrite429 T (Buf4 (u8 (Z.lor (TMC429_IDX_REFCONF_RM Axis) TMC429_READ))
                                   (at1 junk) (at2 junk) (at3 junk))) s = Buf4 st h m l /\
    run (Set429RampMode (logged T) junk Axis Mode) (s, log) =
    (tt, (s', log ++
              telegram (u8 (Z.lor (TMC429_IDX_REFCONF_RM Axis) TMC429_READ))
                       (at1 junk) (at2 junk) (at3 junk) ++
              telegram (u8 (TMC429_IDX_REFCONF_RM Axis)) h m Mode)).
Proof.
  spi_run. do 5 eexists. split; [reflexivity |].
  rewrite <- !app_assoc. reflexivity.
Qed.

Lemma SetAMax_run {G : Target} {H : Header} (T : Transport) (s : Bus T) (log : list xfer)
    (junk : buf4) (Motor AMax : Z) :
  exists s' d,
    is_u8 d /\
    d = at2 (result T (ReadWrite429 T
                         (Buf4 (u8 (Z.lor (u8 (TMC429_IDX_PULSEDIV_RAMPDIV Motor)) TMC429_READ))
                               (at1 junk) (at2 junk) (at3 junk))) s) /\
    run (SetAMax (logged T) junk Motor AMax) (s, log) =
    (0, (s', log ++
             telegram (u8 (Z.lor (u8 (TMC429_IDX_PULSEDIV_RAMPDIV Motor)) TMC429_READ))
                      (at1 junk) (at2 junk) (at3 junk) ++
             telegram (u8 (TMC429_IDX_PMUL_PDIV Motor)) 0
                      (u8 (fst (amax_solve AMax d))) (u8 (snd (amax_solve AMax d))) ++
             telegram (u8 (TMC429_IDX_AMAX Motor)) 0
                      ((amax_masked AMax / 256) mod 256) (amax_masked AMax mod 256))).
Proof.
  spi_run. do 2 eexists. split; [apply u8_is_u8 | split; [reflexivity |]].
  rewrite <- !app_assoc, (shiftr_byte _ 8), low_byte by lia. reflexivity.
Qed.

Lemma zero_loop_run {H : Header} (T : Transport) (f : Z -> Z) (l : list Z)
    (s : Bus T) (log : list xfer) :
  exists s',
    run (for_each (logged T) l (fun addr => Write429Zero (logged T) (f addr))) (s, log) =
    (tt, (s', log ++ flat_map (fun addr => telegram (f addr) 0 0 0) l)).
Proof.
  revert s log. induction l as [| x l IH]; intros s log.
  - exists s. cbn. rewrite app_nil_r. reflexivity.
  - cbn [for_each flat_map]. unfold bind, run.
    destruct (Write429Zero_run T s log (f x)) as [s1 E1]. unfold run in E1. rewrite E1.
    destruct (IH s1 (log ++ telegram (f x) 0 0 0)) as [s2 E2]. unfold run in E2.
    rewrite E2. exists s2. rewrite <- app_assoc. reflexivity.
Qed.

(** ** HardStop *)

(** X4: HardStop sends four telegrams in this order: the read of the ramp
    configuration register of the axis, its write-back with the two upper
    payload bytes as the device answered them and TMC429_RM_VELOCITY as
    the mode byte, the zeroing of V_TARGET and the zeroing of V_ACTUAL.
    The axis of the first two is the motor number cut to 8 bits. *)
Theorem HardStop_telegrams {H : Header} {M : MotionHeader} (T : Transport) (s : Bus T)
    (junk : buf4) (Motor st h m l : Z) :
  result T (ReadWrite429 T (Buf4 (u8 (Z.lor (TMC429_IDX_REFCONF_RM (u8 Motor)) TMC429_READ))
                                 (at1 junk) (at2 junk) (at3 junk))) s = Buf4 st h m l ->
  sent T (HardStop (logged T) junk Motor) s =
    telegram (u8 (Z.lor (TMC429_IDX_REFCONF_RM (u8 Motor)) TMC429_READ))
             (at1 junk) (at2 junk) (at3 junk) ++
    telegram (u8 (TMC429_IDX_REFCONF_RM (u8 Motor))) h m (u8 TMC429_RM_VELOCITY) ++
    telegram (u8 (TMC429_IDX_VTARGET Motor)) 0 0 0 ++
    telegram (u8 (TMC429_IDX_VACTUAL Motor)) 0 0 0.
Proof.
  unfold HardStop. spi_run. intros Hread. inversion Hread; subst. reflexivity.
Qed.

Lemma HardStop_telegrams_witness :
  sent scripted (HardStop (H := datasheet) (M := datasheet_motion) (logged scripted)
                          (Buf4 0 0 0 0) 1) [128; 0; 3; 0] =
    telegram (H := datasheet) 53 0 0 0 ++ telegram (H := datasheet) 52 0 3 2 ++
    telegram (H := datasheet) 40 0 0 0 ++ telegram (H := datasheet) 42 0 0 0.
Proof.
  apply (HardStop_telegrams (H := datasheet) (M := datasheet_motion) scripted [128; 0; 3; 0]
           (Buf4 0 0 0 0) 1 128 0 3 0).
  reflexivity.
Defined.

(** ** Init429 *)

Lemma Init429_motor_run {G : Target} {H : Header} {M : MotionHeader} (T : Transport)
    (s : Bus T) (log : list xfer) (junk : buf4) (motor : Z) :
  exists s' d,
    is_u8 d /\
    run (Init429_motor (logged T) junk motor) (s, log) =
    (tt, (s', log ++ motor_block junk motor d)).
Proof.
  unfold Init429_motor, Write429U16, Write429U24, bind, run.
  destruct (Write429Datagram_run T s log (u8 (TMC429_IDX_PULSEDIV_RAMPDIV motor)) 0 55 6)
    as [s1 E1]. unfold run in E1. rewrite E1.
  match goal with |- context [Write429Datagram (logged T) ?a ?b ?c ?d (s1, ?lg)] =>
    destruct (Write429Datagram_run T s1 lg a b c d) as [s2 E2] end.
  unfold run in E2. rewrite E2.
  match goal with |- context [Write429Short (logged T) ?a ?v (s2, ?lg)] =>
    destruct (Write429Short_run T s2 lg a v) as [s3 E3] end.
  unfold run in E3. rewrite E3.
  match goal with |- context [Write429Int (logged T) ?a ?v (s3, ?lg)] =>
    destruct (Write429Int_run T s3 lg a v) as [s4 E4] end.
  unfold run in E4. rewrite E4.
  match goal with |- context [SetAMax (logged T) ?j ?mo ?am (s4, ?lg)] =>
    destruct (SetAMax_run T s4 lg j mo am) as (s5 & d & Hd & _ & E5) end.
  unfold run in E5. rewrite E5.
  exists s5, d. split; [exact Hd |].
  unfold ret, motor_block. rewrite <- !app_assoc. reflexivity.
Qed.

Lemma Init429_sent {G : Target} {H : Header} {M : MotionHeader} (T : Transport)
    (s : Bus T) (junk : Z -> buf4) :
  let cfg := Z.lor (Z.lor TMC429_IFCONF_EN_SD TMC429_IFCONF_EN_REFR)
                   TMC429_IFCONF_SDO_INT in
  exists d0 d1 d2 : Z,
    is_u8 d0 /\ is_u8 d1 /\ is_u8 d2 /\
    sent T (Init429 (logged T) junk) s =
      zero_block 0 ++ zero_block 1 ++ zero_block 2 ++
      telegram (u8 TMC429_IDX_IF_CONFIG_429)
               ((cfg / 65536) mod 256) ((cfg / 256) mod 256) (cfg mod 256) ++
      telegram (u8 TMC429_IDX_SMGP) 0 0 2 ++
      motor_block (junk 0) 0 d0 ++ motor_block (junk 1) 1 d1 ++ motor_block (junk 2) 2 d2.
Proof.
  intros cfg.
  unfold sent, Init429, Write429U24.
  change (upto 2) with [0; 1; 2]. cbn [for_each]. unfold bind, run.
  destruct (zero_loop_run T (fun addr => u8 (Z.lor addr (TMC429_MOTOR 0)))
              (upto TMC429_IDX_XLATCHED) s []) as [s1 E1].
  unfold run in E1. rewrite E1.
  match goal with |- context [for_each (logged T) _ _ (s1, ?lg)] =>
    destruct (zero_loop_run T (fun addr => u8 (Z.lor addr (TMC429_MOTOR 1)))
                (upto TMC429_IDX_XLATCHED) s1 lg) as [s2 E2] end.
  unfold run in E2. rewrite E2.
  match goal with |- context [for_each (logged T) _ _ (s2, ?lg)] =>
    destruct (zero_loop_run T (fun addr => u8 (Z.lor addr (TMC429_MOTOR 2)))
                (upto TMC429_IDX_XLATCHED) s2 lg) as [s3 E3] end.
  unfold run in E3. rewrite E3. unfold ret.
  match goal with |- context [Write429Int (logged T) ?a ?v (s3, ?lg)] =>
    destruct (Write429Int_run T s3 lg a v) as [s4 E4] end.
  unfold run in E4. rewrite E4.
  match goal with |- context [Write429Datagram (logged T) ?a ?b ?c ?d (s4, ?lg)] =>
    destruct (Write429Datagram_run T s4 lg a b c d) as [s5 E5] end.
  unfold run in E5. rewrite E5.
  match goal with |- context [Init429_motor (logged T) ?j ?mo (s5, ?lg)] =>
    destruct (Init429_motor_run T s5 lg j mo) as (s6 & d0 & Hd0 & E6) end.
  unfold run in E6. rewrite E6.
  match goal with |- context [Init429_motor (logged T) ?j ?mo (s6, ?lg)] =>
    destruct (Init429_motor_run T s6 lg j mo) as (s7 & d1 & Hd1 & E7) end.
  unfold run in E7. rewrite E7.
  match goal with |- context [Init429_motor (logged T) ?j ?mo (s7, ?lg)] =>
    destruct (Init429_motor_run T s7 lg j mo) as (s8 & d2 & Hd2 & E8) end.
  unfold run in E8. rewrite E8.
  exists d0, d1, d2. repeat (split; [assumption |]).
  cbn [snd app]. unfold zero_block. fold cfg. rewrite <- !app_assoc. reflexivity.
Qed.

Lemma run_bind {T : Transport} {A B : Type} (c : SPI T A) (k : A -> SPI T B) (s : Bus T) :
  run (bind c k) s = run (k (fst (run c s))) (snd (run c s)).
Proof. unfold run, bind. destruct (c s). reflexivity. Qed.

Lemma run_ret {T : Transport} {A : Type} (a : A) (s : Bus T) : run (ret a) s = (a, s).
Proof. reflexivity. Qed.

Lemma Write429Datagram_logged {H : Header} (T : Transport) (s : Bus T) (log : list xfer)
    (a b c d : Z) :
  run (Write429Datagram (logged T) a b c d) (s, log) =
  (tt, (snd (run (Write429Datagram T a b c d) s), log ++ telegram a b c d)).
Proof. spi_run. rewrite <- !app_assoc. reflexivity. Qed.

Lemma Write429Zero_logged {H : Header} (T : Transport) (s : Bus T) (log : list xfer) (a : Z) :
  run (Write429Zero (logged T) a) (s, log) =
  (tt, (snd (run (Write429Zero T a) s), log ++ telegram a 0 0 0)).
Proof. spi_run. rewrite <- !app_assoc. reflexivity. Qed.

Lemma Write429Short_logged {H : Header} (T : Transport) (s : Bus T) (log : list xfer)
    (a V : Z) :
  run (Write429Short (logged T) a V) (s, log) =
  (tt, (snd (run (Write429Short T a V) s),
        log ++ telegram a 0 ((V / 256) mod 256) (V mod 256))).
Proof.
  spi_run. rewrite <- !app_assoc, (shiftr_byte V 8), low_byte by lia. reflexivity.
Qed.

Lemma Write429Int_logged {H : Header} (T : Transport) (s : Bus T) (log : list xfer)
    (a V : Z) :
  run (Write429Int (logged T) a V) (s, log) =
  (tt, (snd (run (Write429Int T a V) s),
        log ++ telegram a ((V / 65536) mod 256) ((V / 256) mod 256) (V mod 256))).
Proof.
  spi_run. rewrite <- !app_assoc, (shiftr_byte V 8), (shiftr_byte V 16), low_byte by lia.
  reflexivity.
Qed.

Lemma SetAMax_logged {G : Target} {H : Header} (T : Transport) (s : Bus T) (log : list xfer)
    (junk : buf4) (Motor AMax : Z) :
  let d := at2 (result T (ReadWrite429 T
                            (Buf4 (u8 (Z.lor (u8 (TMC429_IDX_PULSEDIV_RAMPDIV Motor))
                                             TMC429_READ))
                                  (at1 junk) (at2 junk) (at3 junk))) s) in
  run (SetAMax (logged T) junk Motor AMax) (s, log) =
  (0, (snd (run (SetAMax T junk Motor AMax) s),
       log ++
       telegram (u8 (Z.lor (u8 (TMC429_IDX_PULSEDIV_RAMPDIV Motor)) TMC429_READ))
                (at1 junk) (at2 junk) (at3 junk) ++
       telegram (u8 (TMC429_IDX_PMUL_PDIV Motor)) 0
                (u8 (fst (amax_solve AMax d))) (u8 (snd (amax_solve AMax d))) ++
       telegram (u8 (TMC429_IDX_AMAX Motor)) 0
                ((amax_masked AMax / 256) mod 256) (amax_masked AMax mod 256))).
Proof.
  spi_run. rewrite <- !app_assoc, (shiftr_byte _ 8), low_byte by lia. reflexivity.
Qed.

Lemma zero_loop_logged {H : Header} (T : Transport) (f : Z -> Z) (l : list Z)
    (s : Bus T) (log : list xfer) :
  run (for_each (logged T) l (fun addr => Write429Zero (logged T) (f addr))) (s, log) =
  (tt, (snd (run (for_each T l (fun addr => Write429Zero T (f addr))) s),
        log ++ flat_map (fun addr => telegram (f addr) 0 0 0) l)).
Proof.
  revert s log. induction l as [| x l IH]; intros s log.
  - cbn [for_each flat_map]. rewrite !run_ret, app_nil_r. reflexivity.
  - cbn [for_each flat_map]. rewrite !run_bind, Write429Zero_logged. cbn [fst snd].
    rewrite IH, <- app_assoc. reflexivity.
Qed.

Ltac norm_logged :=
  repeat first
    [ rewrite run_bind
    | rewrite run_ret
    | rewrite zero_loop_logged
    | rewrite Write429Datagram_logged
    | rewrite Write429Short_logged
    | rewrite Write429Int_logged
    | rewrite SetAMax_logged
    | progress cbn [fst snd] ].

Ltac norm_plain := repeat first [rewrite run_bind | rewrite run_ret | progress cbn [fst snd]].

Lemma Init429_start_logged {H : Header} {M : MotionHeader} (T : Transport)
    (s : Bus T) (log : list xfer) :
  let cfg := Z.lor (Z.lor TMC429_IFCONF_EN_SD TMC429_IFCONF_EN_REFR)
                   TMC429_IFCONF_SDO_INT in
  run (Init429_start (logged T)) (s, log) =
  (tt, (snd (run (Init429_start T) s),
        log ++ zero_block 0 ++ zero_block 1 ++ zero_block 2 ++
        telegram (u8 TMC429_IDX_IF_CONFIG_429)
                 ((cfg / 65536) mod 256) ((cfg / 256) mod 256) (cfg mod 256) ++
        telegram (u8 TMC429_IDX_SMGP) 0 0 2)).
Proof.
  intros cfg. unfold Init429_start, Write429U24, zero_block.
  change (upto 2) with [0; 1; 2]. cbn [for_each].
  norm_logged. fold cfg. rewrite <- !app_assoc. reflexivity.
Qed.

Lemma Init429_motor_writes_logged {H : Header} {M : MotionHeader} (T : Transport)
    (s : Bus T) (log : list xfer) (motor : Z) :
  run (Init429_motor_writes (logged T) motor) (s, log) =
  (tt, (snd (run (Init429_motor_writes T motor) s),
        log ++
        telegram (u8 (TMC429_IDX_PULSEDIV_RAMPDIV motor)) 0 55 6 ++
        telegram (u8 (TMC429_IDX_REFCONF_RM motor)) 0 (u8 TMC429_NO_REF) 0 ++
        telegram (u8 (TMC429_IDX_VMIN motor)) 0 0 1 ++
        telegram (u8 (TMC429_IDX_VMAX motor)) 0 3 232)).
Proof.
  unfold Init429_motor_writes, Write429U16, Write429U24.
  norm_logged. rewrite <- !app_assoc. reflexivity.
Qed.

Lemma Init429_motor_split {G : Target} {H : Header} {M : MotionHeader} (T : Transport)
    (s : Bus T) (junk : buf4) (motor : Z) :
  run (Init429_motor T junk motor) s =
  run (Init429_motor_writes T motor ;;; (_ <- SetAMax T junk motor 1000 ;; ret tt)) s.
Proof. unfold Init429_motor, Init429_motor_writes. norm_plain. reflexivity. Qed.

Lemma Init429_motor_logged {G : Target} {H : Header} {M : MotionHeader} (T : Transport)
    (s : Bus T) (log : list xfer) (junk : buf4) (motor : Z) :
  let d := at2 (result T
                  (ReadWrite429 T
                     (Buf4 (u8 (Z.lor (u8 (TMC429_IDX_PULSEDIV_RAMPDIV motor)) TMC429_READ))
                           (at1 junk) (at2 junk) (at3 junk)))
                  (snd (run (Init429_motor_writes T motor) s))) in
  run (Init429_motor (logged T) junk motor) (s, log) =
  (tt, (snd (run (Init429_motor T junk motor) s), log ++ motor_block junk motor d)).
Proof.
  intros d. rewrite (Init429_motor_split T s).
  rewrite (Init429_motor_split (logged T) (s, log)).
  rewrite run_bind, Init429_motor_writes_logged. cbn [fst snd].
  norm_logged. fold d. unfold motor_block. rewrite <- !app_assoc. reflexivity.
Qed.

Lemma Init429_split {G : Target} {H : Header} {M : MotionHeader} (T : Transport)
    (s : Bus T) (junk : Z -> buf4) :
  run (Init429 T junk) s =
  run (Init429_start T ;;; for_each T (upto 2) (fun m => Init429_motor T (junk m) m)) s.
Proof. unfold Init429, Init429_start. norm_plain. reflexivity. Qed.

(** X5: on every transport Init429 sends, in this order and nothing
    else: a zero telegram for every address 0..TMC429_IDX_XLATCHED of the
    register block of motor 0, of motor 1 and of motor 2; the interface
    configuration; the telegram (0, 0, 2) for the SMGP register; and for
    each motor in turn the divider bytes (0, 0x37, 0x06), the reference
    configuration (0, NO_REF, 0), VMIN = 1, VMAX = 1000, and the three
    telegrams of SetAMax(motor, 1000): the read of the divider register,
    the PMUL and PDIV that the search gives for the middle byte the device
    answers to that very read, and AMAX = 1000.  [Init429_until], which
    fixes the bus state of each of the three reads, is Init429 cut before
    the SetAMax of the motor. *)
Theorem Init429_telegrams {G : Target} {H : Header} {M : MotionHeader} (T : Transport)
    (s : Bus T) (junk : Z -> buf4) :
  let cfg := Z.lor (Z.lor TMC429_IFCONF_EN_SD TMC429_IFCONF_EN_REFR)
                   TMC429_IFCONF_SDO_INT in
  sent T (Init429 (logged T) junk) s =
    zero_block 0 ++ zero_block 1 ++ zero_block 2 ++
    telegram (u8 TMC429_IDX_IF_CONFIG_429)
             ((cfg / 65536) mod 256) ((cfg / 256) mod 256) (cfg mod 256) ++
    telegram (u8 TMC429_IDX_SMGP) 0 0 2 ++
    motor_block (junk 0) 0 (Init429_divider T junk s 0) ++
    motor_block (junk 1) 1 (Init429_divider T junk s 1) ++
    motor_block (junk 2) 2 (Init429_divider T junk s 2) /\
  run (Init429_until T junk 0) s =
    run (Init429_start T ;;; Init429_motor_writes T 0) s /\
  run (Init429_until T junk 1) s =
    run (Init429_until T junk 0 ;;; (_ <- SetAMax T (junk 0) 0 1000 ;; ret tt) ;;;
         Init429_motor_writes T 1) s /\
  run (Init429_until T junk 2) s =
    run (Init429_until T junk 1 ;;; (_ <- SetAMax T (junk 1) 1 1000 ;; ret tt) ;;;
         Init429_motor_writes T 2) s /\
  run (Init429 T junk) s =
    run (Init429_until T junk 2 ;;; (_ <- SetAMax T (junk 2) 2 1000 ;; ret tt)) s.
Proof.
  intros cfg.
  assert (forall m st, snd (run (Init429_motor T (junk m) m) st) =
                       snd (run (SetAMax T (junk m) m 1000)
                                (snd (run (Init429_motor_writes T m) st)))) as Hm.
  { intros m st. rewrite Init429_motor_split. norm_plain. reflexivity. }
  assert (forall m st, run (Init429_motor T (junk m) m) st =
                       (tt, snd (run (SetAMax T (junk m) m 1000)
                                     (snd (run (Init429_motor_writes T m) st))))) as Hm'.
  { intros m st. rewrite Init429_motor_split. norm_plain. reflexivity. }
  split; [| split; [| split; [| split]]].
  - unfold sent. rewrite (Init429_split (logged T)). change (upto 2) with [0; 1; 2].
    cbn [for_each]. rewrite run_bind, Init429_start_logged. cbn [fst snd].
    rewrite run_bind, Init429_motor_logged. cbn [fst snd].
    rewrite run_bind, Init429_motor_logged. cbn [fst snd].
    rewrite run_bind, Init429_motor_logged. cbn [fst snd].
    rewrite run_ret. cbn [snd]. fold cfg.
    unfold Init429_divider, Init429_until.
    change (upto (0 - 1)) with (@nil Z). change (upto (1 - 1)) with [0].
    change (upto (2 - 1)) with [0; 1]. cbn [for_each].
    norm_plain. rewrite ?Hm. rewrite <- ?app_assoc. reflexivity.
  - unfold Init429_until. change (upto (0 - 1)) with (@nil Z). cbn [for_each].
    norm_plain. reflexivity.
  - unfold Init429_until. change (upto (0 - 1)) with (@nil Z). change (upto (1 - 1)) with [0].
    cbn [for_each]. norm_plain. rewrite ?Hm. reflexivity.
  - unfold Init429_until. change (upto (1 - 1)) with [0]. change (upto (2 - 1)) with [0; 1].
    cbn [for_each]. norm_plain. rewrite ?Hm. reflexivity.
  - rewrite Init429_split. unfold Init429_until. change (upto 2) with [0; 1; 2].
    change (upto (2 - 1)) with [0; 1]. cbn [for_each]. norm_plain.
    rewrite ?Hm'. cbn [fst snd]. rewrite ?Hm. reflexivity.
Qed.


(** ** Framing *)

Lemma whole_telegram {H : Header} (a b c d : Z) : whole_telegrams (telegram a b c d).
Proof. rewrite <- (app_nil_r (telegram a b c d)). apply whole_cons, whole_nil. Qed.

Lemma whole_app {H : Header} (l1 l2 : list xfer) :
  whole_telegrams l1 -> whole_telegrams l2 -> whole_telegrams (l1 ++ l2).
Proof.
  induction 1 as [| a b c d l Hl IH]; intros H2; [exact H2 |].
  rewrite <- app_assoc. apply whole_cons, IH, H2.
Qed.

Lemma whole_flat_map {H : Header} (f : Z -> Z) (l : list Z) :
  whole_telegrams (flat_map (fun x => telegram (f x) 0 0 0) l).
Proof.
  induction l as [| x l IH]; [apply whole_nil |].
  cbn [flat_map]. apply whole_app; [apply whole_telegram | exact IH].
Qed.

Lemma whole_motor_block {G : Target} {H : Header} {M : MotionHeader}
    (junk : buf4) (motor d : Z) :
  whole_telegrams (motor_block junk motor d).
Proof. unfold motor_block. repeat (apply whole_app; [apply whole_telegram |]). apply whole_telegram. Qed.

Ltac whole_run :=
  spi_run;
  repeat match goal with
         | |- whole_telegrams [] => apply whole_nil
         | |- whole_telegrams (Xfer _ ?a false :: Xfer _ ?b false :: Xfer _ ?c false
                                 :: Xfer _ ?d true :: ?l) =>
             apply (whole_cons a b c d l)
         end.

(** X6: every operation of the driver but Read429Status talks to the
    bus in whole telegrams: four transfers to SPI_DEV_TMC429 each, the chip
    select held over the first three and released with the fourth, so the
    chip select is released when the operation returns.  Read429Status is
    the one exception, a transaction of the single byte 0x01. *)
Theorem driver_sends_whole_telegrams {G : Target} {H : Header} {M : MotionHeader}
    (T : Transport) (s : Bus T) (junk : buf4) (junks : Z -> buf4)
    (Address Index Axis Mode HighByte MidByte LowByte Value Motor AMax : Z) (Bytes : buf3) :
  whole_telegrams (sent T (Write429Bytes (logged T) Address Bytes) s) /\
  whole_telegrams (sent T (Write429Datagram (logged T) Address HighByte MidByte LowByte) s) /\
  whole_telegrams (sent T (Write429Zero (logged T) Address) s) /\
  whole_telegrams (sent T (Write429Short (logged T) Address Value) s) /\
  whole_telegrams (sent T (Write429Int (logged T) Address Value) s) /\
  whole_telegrams (sent T (Read429Bytes (logged T) junk Address) s) /\
  whole_telegrams (sent T (Read429SingleByte (logged T) junk Address Index) s) /\
  whole_telegrams (sent T (Read429Int12 (logged T) junk Address) s) /\
  whole_telegrams (sent T (Read429Int24 (logged T) junk Address) s) /\
  whole_telegrams (sent T (Set429RampMode (logged T) junk Axis Mode) s) /\
  whole_telegrams (sent T (Set429SwitchMode (logged T) junk Axis Mode) s) /\
  whole_telegrams (sent T (SetAMax (logged T) junk Motor AMax) s) /\
  whole_telegrams (sent T (HardStop (logged T) junk Motor) s) /\
  whole_telegrams (sent T (Init429 (logged T) junks) s) /\
  sent T (Read429Status (logged T)) s = [Xfer SPI_DEV_TMC429 1 true].
Proof.
  repeat match goal with |- _ /\ _ => split end;
    try (unfold HardStop; whole_run; fail).
  - destruct (Init429_sent T s junks) as (d0 & d1 & d2 & _ & _ & _ & ->).
    unfold zero_block.
    repeat (apply whole_app;
            [first [apply whole_flat_map | apply whole_telegram | apply whole_motor_block] |]).
    first [apply whole_motor_block | apply whole_telegram].
  - unfold Read429Status. spi_run. reflexivity.
Qed.

(** ** The result of the search *)

(** X7: the PMUL and PDIV bytes that SetAMax writes are either a proper
    pair, PMUL in 128..255 and PDIV in 0..13, or the two bytes 0xFF of the
    search that found nothing; nothing else is ever written there. *)
Theorem SetAMax_pair_range {G : Target} {H : Header} (T : Transport) (s : Bus T)
    (junk : buf4) (Motor AMax : Z) :
  exists pm pd : Z,
    nth 1 (telegrams (sent T (SetAMax (logged T) junk Motor AMax) s)) [] =
      [u8 (TMC429_IDX_PMUL_PDIV Motor); 0; pm; pd] /\
    ((pm = 255 /\ pd = 255) \/ (128 <= pm <= 255 /\ 0 <= pd <= 13)).
Proof.
  destruct (SetAMax_run T s [] junk Motor AMax) as (s' & d & _ & _ & E).
  unfold sent. rewrite E. cbn [snd app].
  exists (u8 (fst (amax_solve AMax d))), (u8 (snd (amax_solve AMax d))).
  split; [reflexivity |].
  unfold amax_solve.
  destruct (amax_search_spec
              (amax_p_reduced (amax_p (amax_masked AMax) (pulse_div_of d) (ramp_div_of d))))
    as [(pd & Hin & Hok & _ & ->) | (_ & ->)].
  - right. cbn [fst snd]. apply pdiv_range_bounds in Hin.
    unfold pmul_ok in Hok. apply andb_prop in Hok. destruct Hok as [H0 H1].
    apply Z.leb_le in H0, H1.
    rewrite !u8_small by (unfold is_u8; lia). lia.
  - left. split; reflexivity.
Qed.

(** ** The 12 bit read *)

(** X8: whatever the device answers, Read429Int12 returns the sign
    extension of the 12 bit field in the two lower payload bytes when the
    four bits above the field are clear or bit 11 is set, and otherwise the
    16 bit number that the two bytes make; the result always lies in
    -2048..63487. *)
Theorem Read429Int12_decodes {H : Header} (T : Transport) (s : Bus T)
    (junk : buf4) (Address : Z) :
  let Bytes := snd (result T (Read429Bytes T junk Address) s) in
  result T (Read429Int12 T junk Address) s =
    (if (mid Bytes <? 16) || Z.testbit (mid Bytes) 3
     then sign_extend12 (256 * mid Bytes + lo Bytes)
     else 256 * mid Bytes + lo Bytes) /\
  -2048 <= result T (Read429Int12 T junk Address) s <= 63487.
Proof.
  intros Bytes.
  pose proof (ReadWrite429_bytes T s (Buf4 (u8 (Z.lor Address TMC429_READ))
                                          (at1 junk) (at2 junk) (at3 junk)))
    as (_ & _ & H2 & H3).
  assert (result T (Read429Int12 T junk Address) s =
          if (mid Bytes <? 16) || Z.testbit (mid Bytes) 3
          then sign_extend12 (256 * mid Bytes + lo Bytes)
          else 256 * mid Bytes + lo Bytes) as Heq.
  { subst Bytes. revert H2 H3. spi_run. cbn [at2 at3 mid lo].
    intros H2 H3. apply int12_of_cases; assumption. }
  split; [exact Heq |]. rewrite Heq.
  assert (is_u8 (mid Bytes) /\ is_u8 (lo Bytes)) as [Hm Hl].
  { subst Bytes. revert H2 H3. spi_run. cbn [at2 at3 mid lo]. intros; split; assumption. }
  unfold is_u8 in Hm, Hl.
  destruct ((mid Bytes <? 16) || Z.testbit (mid Bytes) 3) eqn:E.
  - unfold sign_extend12.
    pose proof (Z.mod_pos_bound (256 * mid Bytes + lo Bytes) 4096).
    destruct (Z.ltb_spec ((256 * mid Bytes + lo Bytes) mod 4096) 2048); lia.
  - apply orb_false_iff in E. destruct E as [E1 E2].
    apply Z.ltb_ge in E1.
    assert (mid Bytes < 248); [| lia].
    destruct (Z.lt_ge_cases (mid Bytes) 248) as [Hlt | Hge]; [exact Hlt |].
    exfalso.
    assert (mid Bytes = 248 \/ mid Bytes = 249 \/ mid Bytes = 250 \/ mid Bytes = 251 \/
            mid Bytes = 252 \/ mid Bytes = 253 \/ mid Bytes = 254 \/ mid Bytes = 255)
      as Hc by lia.
    repeat (destruct Hc as [Hc | Hc]; [rewrite Hc in E2; discriminate E2 |]).
    rewrite Hc in E2. discriminate E2.
Qed.

(** ** The writers among themselves *)

(** X9: on every transport and bus state, the 16 bit write of a value
    is the 24 bit write of that value cut to 16 bits, the zero write is the
    24 bit write of 0, and the 24 bit write is the datagram write of the
    three bytes of the value: the same transfers, the same state after. *)
Theorem writers_agree {H : Header} (T : Transport) (s : Bus T) (Address V : Z) :
  run (Write429Short T Address V) s = run (Write429Int T Address (V mod 65536)) s /\
  run (Write429Zero T Address) s = run (Write429Int T Address 0) s /\
  run (Write429Int T Address V) s =
    run (Write429Datagram T Address ((V / 65536) mod 256) ((V / 256) mod 256) (V mod 256)) s /\
  run (Write429Datagram T Address ((V / 65536) mod 256) ((V / 256) mod 256) (V mod 256)) s =
    run (Write429Bytes T Address
           (Buf3 ((V / 65536) mod 256) ((V / 256) mod 256) (V mod 256))) s.
Proof.
  assert (forall W, u8 (Z.shiftr W 8) = (W / 256) mod 256) as E8
    by (intros W; apply (shiftr_byte W 8); lia).
  assert (forall W, u8 (Z.shiftr W 16) = (W / 65536) mod 256) as E16
    by (intros W; apply (shiftr_byte W 16); lia).
  repeat split.
  - unfold Write429Short, Write429Int. rewrite !E8, !E16, !low_byte.
    replace ((V mod 65536 / 65536) mod 256) with 0 by (Z.div_mod_to_equations; lia).
    replace ((V mod 65536 / 256) mod 256) with ((V / 256) mod 256)
      by (Z.div_mod_to_equations; lia).
    replace ((V mod 65536) mod 256) with (V mod 256) by (Z.div_mod_to_equations; lia).
    reflexivity.
  - unfold Write429Int. rewrite E8, E16, low_byte. reflexivity.
Qed.

(** ** The two mode setters in a row *)

(** As [spi_run], the transfers taken in the order of the bus states. *)
Ltac spi_step_in_order :=
  match goal with
  | |- context [ReadWriteSPI ?T ?d ?b ?l ?s] =>
      is_var s;
      let r := fresh "r" in
      let s' := fresh "s" in
      let E := fresh "E" in
      destruct (ReadWriteSPI T d b l s) as [r s'] eqn:E;
      cbn [fst snd app at0 at1 at2 at3]
  end.

Ltac spi_run_in_order :=
  spi_unfold; cbn [logged ReadWriteSPI Bus fst snd app at0 at1 at2 at3];
  repeat spi_step_in_order.

(** X10: Set429RampMode followed by Set429SwitchMode on the same axis,
    against a device that answers the second read with what the first
    setter wrote back: the second write-back carries the new switch mode
    in the middle byte and still the new ramp mode in the low byte, the
    high byte as it was.  Neither setter undoes the other. *)
Theorem mode_setters_compose {H : Header} (T : Transport) (s : Bus T)
    (junk1 junk2 : buf4) (Axis rm sw st h m l st' : Z) :
  result T (ReadWrite429 T (Buf4 (u8 (Z.lor (TMC429_IDX_REFCONF_RM Axis) TMC429_READ))
                                 (at1 junk1) (at2 junk1) (at3 junk1))) s = Buf4 st h m l ->
  result T (ReadWrite429 T (Buf4 (u8 (Z.lor (TMC429_IDX_REFCONF_RM Axis) TMC429_READ))
                                 (at1 junk2) (at2 junk2) (at3 junk2)))
         (snd (run (Set429RampMode T junk1 Axis rm) s)) = Buf4 st' h m rm ->
  sent T (Set429RampMode (logged T) junk1 Axis rm ;;;
          Set429SwitchMode (logged T) junk2 Axis sw) s =
    telegram (u8 (Z.lor (TMC429_IDX_REFCONF_RM Axis) TMC429_READ))
             (at1 junk1) (at2 junk1) (at3 junk1) ++
    telegram (u8 (TMC429_IDX_REFCONF_RM Axis)) h m rm ++
    telegram (u8 (Z.lor (TMC429_IDX_REFCONF_RM Axis) TMC429_READ))
             (at1 junk2) (at2 junk2) (at3 junk2) ++
    telegram (u8 (TMC429_IDX_REFCONF_RM Axis)) h sw rm.
Proof.
  spi_run_in_order. intros Hread1 Hread2.
  injection Hread1 as _ <- <- _. injection Hread2 as _ Hh Hm Hl.
  rewrite Hh, Hl. reflexivity.
Qed.

Lemma mode_setters_compose_witness :
  sent scripted (Set429RampMode (H := datasheet) (logged scripted) (Buf4 0 0 0 0) 1 2 ;;;
                 Set429SwitchMode (H := datasheet) (logged scripted) (Buf4 0 0 0 0) 1 3)
       [128; 1; 15; 0; 128; 0; 0; 0; 128; 1; 15; 2] =
    telegram (H := datasheet) 53 0 0 0 ++ telegram (H := datasheet) 52 1 15 2 ++
    telegram (H := datasheet) 53 0 0 0 ++ telegram (H := datasheet) 52 1 3 2.
Proof.
  apply (mode_setters_compose (H := datasheet) scripted
           [128; 1; 15; 0; 128; 0; 0; 0; 128; 1; 15; 2]
           (Buf4 0 0 0 0) (Buf4 0 0 0 0) 1 2 3 128 1 15 0 128);
    reflexivity.
Defined.

(** ** The first loop of Init429 *)

Lemma telegrams_whole_app {H : Header} (l1 l2 : list xfer) :
  whole_telegrams l1 -> telegrams (l1 ++ l2) = telegrams l1 ++ telegrams l2.
Proof.
  induction 1 as [| a b c d l Hl IH]; [reflexivity |].
  rewrite <- app_assoc.
  change (telegrams (telegram a b c d ++ l ++ l2)) with ([a; b; c; d] :: telegrams (l ++ l2)).
  rewrite IH. reflexivity.
Qed.

Lemma telegrams_zero_block {H : Header} {M : MotionHeader} (motor : Z) :
  telegrams (zero_block motor) =
  map (fun addr => [u8 (Z.lor addr (TMC429_MOTOR motor)); 0; 0; 0]) (upto TMC429_IDX_XLATCHED).
Proof.
  unfold zero_block. induction (upto TMC429_IDX_XLATCHED) as [| x l IH]; [reflexivity |].
  cbn [flat_map map].
  rewrite telegrams_whole_app by apply whole_telegram. rewrite IH. reflexivity.
Qed.

Lemma upto_complete (n x : Z) : 0 <= x <= n -> In x (upto n).
Proof.
  intros Hx. unfold upto. rewrite <- (Z2Nat.id x) by lia.
  apply in_map, in_seq. lia.
Qed.

Lemma read_flag_of_odd {H : Header} (x : Z) :
  TMC429_READ = 1 -> Z.odd x = true -> read_flag (u8 x) = 1.
Proof.
  intros HR Hx. unfold read_flag. rewrite HR.
  change 1 with (Z.ones 1) at 1. rewrite Z.land_ones by lia.
  change (2 ^ 1) with 2. unfold u8.
  replace ((x mod 256) mod 2) with (x mod 2) by (Z.div_mod_to_equations; lia).
  rewrite Zmod_odd, Hx. reflexivity.
Qed.

(** X11: for each of the three motors the first loop of Init429 sends a
    zero telegram to every address addr | TMC429_MOTOR(motor) with addr in
    0..TMC429_IDX_XLATCHED, the odd values of addr included; and when
    TMC429_READ is bit 0, the telegram of an odd addr carries the read
    flag: it reads and does not zero a register. *)
Theorem Init429_zeroes_every_address {G : Target} {H : Header} {M : MotionHeader}
    (T : Transport) (s : Bus T) (junk : Z -> buf4) (motor addr : Z) :
  0 <= motor <= 2 ->
  0 <= addr <= TMC429_IDX_XLATCHED ->
  In [u8 (Z.lor addr (TMC429_MOTOR motor)); 0; 0; 0]
     (telegrams (sent T (Init429 (logged T) junk) s)) /\
  (TMC429_READ = 1 -> Z.odd addr = true ->
   read_flag (u8 (Z.lor addr (TMC429_MOTOR motor))) = 1).
Proof.
  intros Hm Ha. split.
  - destruct (Init429_sent T s junk) as (d0 & d1 & d2 & _ & _ & _ & ->).
    assert (forall mo, whole_telegrams (zero_block mo)) as Hw
      by (intros mo; apply whole_flat_map).
    assert (forall mo, In [u8 (Z.lor addr (TMC429_MOTOR mo)); 0; 0; 0]
                          (telegrams (zero_block mo))) as Hin.
    { intros mo. rewrite telegrams_zero_block.
      apply (in_map (fun a => [u8 (Z.lor a (TMC429_MOTOR mo)); 0; 0; 0])).
      apply upto_complete. assumption. }
    rewrite !telegrams_whole_app by apply Hw.
    assert (motor = 0 \/ motor = 1 \/ motor = 2) as [-> | [-> | ->]] by lia.
    + apply in_or_app. left. apply Hin.
    + apply in_or_app. right. apply in_or_app. left. apply Hin.
    + apply in_or_app. right. apply in_or_app. right. apply in_or_app. left. apply Hin.
  - intros HR Hodd. apply read_flag_of_odd; [exact HR |].
    rewrite <- Z.bit0_odd, Z.lor_spec, Z.bit0_odd, Hodd. reflexivity.
Qed.

Lemma Init429_zeroes_every_address_witness :
  In [u8 (Z.lor 21 (TMC429_MOTOR (MotionHeader := datasheet_motion) 1)); 0; 0; 0]
     (telegrams (sent scripted
                   (Init429 (G := x86) (H := datasheet) (M := datasheet_motion)
                            (logged scripted) (fun _ => Buf4 0 0 0 0)) [])) /\
  (TMC429_READ (Header := datasheet) = 1 -> Z.odd 21 = true ->
   read_flag (H := datasheet)
             (u8 (Z.lor 21 (TMC429_MOTOR (MotionHeader := datasheet_motion) 1))) = 1).
Proof.
  apply (Init429_zeroes_every_address (G := x86) (H := datasheet) (M := datasheet_motion)
           scripted [] (fun _ => Buf4 0 0 0 0) 1 21).
  - lia.
  - cbn. lia.
Defined.

(** ** SetAMax with no acceleration *)

Lemma p_of_zero_table : forallb p_of_zero_ok div_diffs = true.
Proof. vm_compute. reflexivity. Qed.

Lemma amax_p_of_zero (d : Z) :
  is_u8 d -> amax_p 0 (pulse_div_of d) (ramp_div_of d) = S754_zero false.
Proof.
  intros Hd.
  pose proof (pulse_div_range _ Hd) as Hp.
  pose proof (ramp_div_range d) as Hr.
  pose proof p_of_zero_table as Ht. rewrite forallb_forall in Ht.
  assert (forall x, is_pos_zero x = true -> x = S754_zero false) as Hz.
  { intros [[|] | | | ? ? ?]; try discriminate. reflexivity. }
  rewrite amax_p_distance.
  destruct (ramp_div_of d >=? pulse_div_of d) eqn:E;
    rewrite Z.geb_leb in E; [apply Z.leb_le in E | apply Z.leb_gt in E].
  - assert (0 <= ramp_div_of d - pulse_div_of d <= 15) as Hx by lia.
    specialize (Ht _ (div_diffs_complete _ Hx)).
    unfold p_of_zero_ok in Ht. apply andb_prop in Ht. apply Hz, Ht.
  - assert (0 <= pulse_div_of d - ramp_div_of d <= 15) as Hx by lia.
    specialize (Ht _ (div_diffs_complete _ Hx)).
    unfold p_of_zero_ok in Ht. apply andb_prop in Ht. apply Hz, Ht.
Qed.

Lemma amax_solve_of_zero {G : Target} (AMax d : Z) :
  AMax mod 2048 = 0 -> is_u8 d -> amax_solve AMax d = (-1, -1).
Proof.
  intros HA Hd. unfold amax_solve.
  assert (amax_masked AMax = 0) as ->.
  { unfold amax_masked. change 2047 with (Z.ones 11). rewrite Z.land_ones by lia.
    exact HA. }
  rewrite amax_p_of_zero by assumption.
  change (amax_p_reduced (S754_zero false)) with (S754_zero false).
  destruct (amax_search_spec (S754_zero false))
    as [(pd & Hin & Hok & _) | (_ & Heq)]; [| exact Heq].
  rewrite (amax_pmul_exact (S754_zero false) pd eq_refl Hin) in Hok.
  assert (pmul_exact (S754_zero false) pd = -128) as Hz.
  { unfold pmul_exact, SF2Q.
    assert (0 * 8 * inject_Z (2 ^ pd) == 0)%Q as -> by ring. reflexivity. }
  rewrite Hz in Hok. discriminate Hok.
Qed.

(** X12: when AMax is 0 after the masking, so for AMax = 0 and for
    every multiple of 2048, SetAMax finds no pair whatever the dividers
    are: it writes 0xFF as PMUL and as PDIV and 0 as AMAX, and returns 0
    like on every other input. *)
Theorem SetAMax_zero_acceleration {G : Target} {H : Header} (T : Transport) (s : Bus T)
    (junk : buf4) (Motor AMax : Z) :
  AMax mod 2048 = 0 ->
  nth 1 (telegrams (sent T (SetAMax (logged T) junk Motor AMax) s)) [] =
    [u8 (TMC429_IDX_PMUL_PDIV Motor); 0; 255; 255] /\
  nth 2 (telegrams (sent T (SetAMax (logged T) junk Motor AMax) s)) [] =
    [u8 (TMC429_IDX_AMAX Motor); 0; 0; 0] /\
  result T (SetAMax T junk Motor AMax) s = 0.
Proof.
  intros HA.
  destruct (SetAMax_run T s [] junk Motor AMax) as (s' & d & Hd & _ & E).
  unfold sent. rewrite E. cbn [snd app].
  rewrite (amax_solve_of_zero AMax d HA Hd).
  assert (amax_masked AMax = 0) as ->.
  { unfold amax_masked. change 2047 with (Z.ones 11). rewrite Z.land_ones by lia.
    exact HA. }
  split; [reflexivity | split; [reflexivity | apply SetAMax_returns_0]].
Qed.

Lemma SetAMax_zero_acceleration_witness :
  nth 1 (telegrams (sent scripted
                      (SetAMax (G := x86) (H := datasheet) (logged scripted) (Buf4 0 0 0 0) 0 2048)
                      [128; 0; 55; 6])) [] =
    [u8 (TMC429_IDX_PMUL_PDIV (Header := datasheet) 0); 0; 255; 255] /\
  nth 2 (telegrams (sent scripted
                      (SetAMax (G := x86) (H := datasheet) (logged scripted) (Buf4 0 0 0 0) 0 2048)
                      [128; 0; 55; 6])) [] =
    [u8 (TMC429_IDX_AMAX (Header := datasheet) 0); 0; 0; 0] /\
  result scripted (SetAMax (G := x86) (H := datasheet) scripted (Buf4 0 0 0 0) 0 2048)
         [128; 0; 55; 6] = 0.
Proof.
  apply (SetAMax_zero_acceleration (G := x86) (H := datasheet) scripted [128; 0; 55; 6]
           (Buf4 0 0 0 0) 0 2048).
  reflexivity.
Defined.

(** ** When the search succeeds *)

Lemma Qfloor_double (q : Q) : 2 * Qfloor q <= Qfloor (2 * q)%Q <= 2 * Qfloor q + 1.
Proof.
  pose proof (Qfloor_le q) as H1. pose proof (Qlt_floor q) as H2.
  pose proof (Qfloor_le (2 * q)) as H3. pose proof (Qlt_floor (2 * q)) as H4.
  rewrite inject_Z_plus in H2, H4.
  assert (inject_Z (2 * Qfloor q) < inject_Z (Qfloor (2 * q) + 1))%Q as Hlo.
  { rewrite inject_Z_mult, inject_Z_plus. change (inject_Z 2) with 2%Q.
    change (inject_Z 1) with 1%Q in *. lra. }
  assert (inject_Z (Qfloor (2 * q)) < inject_Z (2 * Qfloor q + 2))%Q as Hhi.
  { rewrite inject_Z_plus, inject_Z_mult. change (inject_Z 2) with 2%Q.
    change (inject_Z 1) with 1%Q in *. lra. }
  rewrite <- Zlt_Qlt in Hlo, Hhi. lia.
Qed.

Lemma scaled_floor_double (x : spec_float) (k : Z) :
  0 <= k ->
  2 * scaled_floor x k <= scaled_floor x (k + 1) <= 2 * scaled_floor x k + 1.
Proof.
  intros Hk. unfold scaled_floor.
  assert (SF2Q x * 8 * inject_Z (2 ^ (k + 1)) == 2 * (SF2Q x * 8 * inject_Z (2 ^ k)))%Q as ->.
  { rewrite Z.pow_add_r by lia. change (2 ^ 1) with 2. rewrite inject_Z_mult.
    change (inject_Z 2) with 2%Q. ring. }
  apply Qfloor_double.
Qed.

Lemma scaled_floor_pmul (x : spec_float) (k : Z) : pmul_exact x k = scaled_floor x k - 128.
Proof. reflexivity. Qed.

Lemma scaled_floor_grows (x : spec_float) (k : Z) (n : nat) :
  0 <= k -> 128 <= scaled_floor x k -> 256 <= scaled_floor x (k + 1 + Z.of_nat n).
Proof.
  intros Hk Hv. induction n as [| n IH].
  - rewrite Z.add_0_r. pose proof (scaled_floor_double x k Hk). lia.
  - replace (k + 1 + Z.of_nat (S n)) with (k + 1 + Z.of_nat n + 1) by lia.
    pose proof (scaled_floor_double x (k + 1 + Z.of_nat n)). lia.
Qed.

(** X13: at most one pdiv of 0..13 passes the range test of the search,
    because a candidate doubles (up to rounding) from one pdiv to the next:
    the pair that SetAMax keeps is the only candidate there is, and the
    order of the search has no influence on it. *)
Theorem SetAMax_candidate_is_unique {G : Target} (AMax PulseRampDiv k1 k2 : Z) :
  cvt_is_no_multiplier G ->
  is_u8 PulseRampDiv ->
  let p_reduced :=
    amax_p_reduced (amax_p (amax_masked AMax) (pulse_div_of PulseRampDiv)
                           (ramp_div_of PulseRampDiv)) in
  0 <= k1 <= 13 -> 0 <= k2 <= 13 ->
  pmul_ok (amax_pmul p_reduced k1) = true ->
  pmul_ok (amax_pmul p_reduced k2) = true ->
  k1 = k2.
Proof.
  intros HG Hb p_reduced H1 H2 Hok1 Hok2.
  pose proof (p_reduced_normal_or_zero AMax PulseRampDiv Hb) as Hx. fold p_reduced in Hx.
  apply (proj1 (pmul_ok_exact p_reduced k1 HG Hx (proj2 (pdiv_range_bounds k1) H1))) in Hok1.
  apply (proj1 (pmul_ok_exact p_reduced k2 HG Hx (proj2 (pdiv_range_bounds k2) H2))) in Hok2.
  rewrite scaled_floor_pmul in Hok1, Hok2.
  destruct (Z.lt_trichotomy k1 k2) as [Hlt | [Heq | Hgt]]; [| exact Heq |].
  - pose proof (scaled_floor_grows p_reduced k1 (Z.to_nat (k2 - k1 - 1))) as Hg.
    replace (k1 + 1 + Z.of_nat (Z.to_nat (k2 - k1 - 1))) with k2 in Hg by lia. lia.
  - pose proof (scaled_floor_grows p_reduced k2 (Z.to_nat (k1 - k2 - 1))) as Hg.
    replace (k2 + 1 + Z.of_nat (Z.to_nat (k1 - k2 - 1))) with k1 in Hg by lia. lia.
Qed.

Lemma SetAMax_candidate_is_unique_witness :
  cvt_is_no_multiplier x86 /\ is_u8 118 /\ 1 = 1.
Proof.
  assert (cvt_is_no_multiplier x86) as HG by reflexivity.
  assert (is_u8 118) as Hb by (unfold is_u8; lia).
  split; [exact HG | split; [exact Hb |]].
  apply (SetAMax_candidate_is_unique (G := x86) 1000 118 1 1 HG Hb);
    try lia; vm_compute; reflexivity.
Defined.

Lemma Qfloor_ge (q : Q) (z : Z) : z <= Qfloor q <-> (inject_Z z <= q)%Q.
Proof.
  split.
  - intros Hz. apply Qle_trans with (inject_Z (Qfloor q)); [| apply Qfloor_le].
    rewrite <- Zle_Qle. exact Hz.
  - intros Hz. rewrite <- (Qfloor_Z z). apply Qfloor_resp_le. exact Hz.
Qed.

Lemma Qfloor_lt (q : Q) (z : Z) : Qfloor q < z <-> (q < inject_Z z)%Q.
Proof.
  split.
  - intros Hz. apply Qlt_le_trans with (inject_Z (Qfloor q + 1)); [apply Qlt_floor |].
    rewrite <- Zle_Qle. lia.
  - intros Hz. rewrite Zlt_Qlt.
    apply Qle_lt_trans with q; [apply Qfloor_le | exact Hz].
Qed.

Lemma scaled_floor_first (x : spec_float) (n : nat) :
  scaled_floor x 0 <= 255 ->
  128 <= scaled_floor x (Z.of_nat n) ->
  exists k, 0 <= k <= Z.of_nat n /\ 128 <= scaled_floor x k <= 255.
Proof.
  intros H0. induction n as [| n IH]; intros Hn.
  - exists 0. change (Z.of_nat 0) with 0 in *. lia.
  - destruct (Z_le_gt_dec 128 (scaled_floor x (Z.of_nat n))) as [Hge | Hlt].
    + destruct (IH Hge) as (k & Hk & Hv). exists k. lia.
    + exists (Z.of_nat (S n)). split; [lia |].
      pose proof (scaled_floor_double x (Z.of_nat n) ltac:(lia)) as Hd.
      replace (Z.of_nat n + 1) with (Z.of_nat (S n)) in Hd by lia. lia.
Qed.

Lemma scaled_floor_monotone (x : spec_float) (k : Z) (n : nat) :
  float_normal_or_zero x = true -> 0 <= k ->
  scaled_floor x k <= scaled_floor x (k + Z.of_nat n).
Proof.
  intros Hx Hk. induction n as [| n IH].
  - rewrite Z.add_0_r. lia.
  - replace (k + Z.of_nat (S n)) with (k + Z.of_nat n + 1) by lia.
    pose proof (scaled_floor_double x (k + Z.of_nat n) ltac:(lia)).
    pose proof (pmul_exact_lower x (k + Z.of_nat n) Hx ltac:(lia)) as Hlow.
    rewrite scaled_floor_pmul in Hlow. lia.
Qed.

(** X14: SetAMax finds a pair exactly when 1/512 <= p_reduced < 32; on
    every other input, p_reduced below 1/512 or from 32 on, it writes the
    two bytes 0xFF. *)
Theorem SetAMax_finds_pair_iff {G : Target} (AMax PulseRampDiv : Z) :
  cvt_is_no_multiplier G ->
  is_u8 PulseRampDiv ->
  let p_reduced :=
    amax_p_reduced (amax_p (amax_masked AMax) (pulse_div_of PulseRampDiv)
                           (ramp_div_of PulseRampDiv)) in
  amax_solve AMax PulseRampDiv <> (-1, -1) <->
  (1 # 512 <= SF2Q p_reduced /\ SF2Q p_reduced < 32)%Q.
Proof.
  intros HG Hb p_reduced.
  pose proof (p_reduced_normal_or_zero AMax PulseRampDiv Hb) as Hx. fold p_reduced in Hx.
  assert (forall k, 0 <= k <= 13 ->
            (pmul_ok (amax_pmul p_reduced k) = true <-> 128 <= scaled_floor p_reduced k <= 255))
    as Hcmp.
  { intros k Hk.
    rewrite (proj1 (pmul_ok_exact p_reduced k HG Hx (proj2 (pdiv_range_bounds k) Hk))).
    rewrite scaled_floor_pmul. lia. }
  assert (128 <= scaled_floor p_reduced 13 <-> (1 # 512 <= SF2Q p_reduced)%Q) as H13.
  { unfold scaled_floor. rewrite Qfloor_ge.
    change (inject_Z (2 ^ 13)) with 8192%Q. change (inject_Z 128) with 128%Q.
    split; intros; lra. }
  assert (scaled_floor p_reduced 0 <= 255 <-> (SF2Q p_reduced < 32)%Q) as H0.
  { unfold scaled_floor.
    assert (forall z, z <= 255 <-> z < 256) as E by (intros; lia). rewrite E, Qfloor_lt.
    change (inject_Z (2 ^ 0)) with 1%Q. change (inject_Z 256) with 256%Q.
    split; intros; lra. }
  unfold amax_solve. fold p_reduced.
  destruct (amax_search_spec p_reduced) as [(pd & Hin & Hok & _ & Heq) | (Hnone & Heq)].
  - apply pdiv_range_bounds in Hin. apply (Hcmp pd Hin) in Hok.
    assert (amax_search p_reduced <> (-1, -1)) as Hne.
    { rewrite Heq. intros [= _ Hpd]. lia. }
    split; [intros _ | intros _; exact Hne].
    rewrite <- H13, <- H0.
    pose proof (scaled_floor_monotone p_reduced 0 (Z.to_nat pd) Hx ltac:(lia)) as Hm0.
    pose proof (scaled_floor_monotone p_reduced pd (Z.to_nat (13 - pd)) Hx ltac:(lia)) as Hm1.
    replace (0 + Z.of_nat (Z.to_nat pd)) with pd in Hm0 by lia.
    replace (pd + Z.of_nat (Z.to_nat (13 - pd))) with 13 in Hm1 by lia. lia.
  - split; [intros Hne; contradiction |].
    rewrite <- H13, <- H0. intros [Hhi Hlo]. exfalso.
    destruct (scaled_floor_first p_reduced 13 Hlo Hhi) as (k & Hk & Hv).
    change (Z.of_nat 13) with 13 in Hk.
    apply (Hcmp k Hk) in Hv.
    rewrite Hnone in Hv by (apply pdiv_range_bounds; exact Hk). discriminate.
Qed.

Lemma SetAMax_finds_pair_iff_witness :
  let p_reduced := amax_p_reduced (amax_p (amax_masked 1000) (pulse_div_of 118)
                                          (ramp_div_of 118)) in
  amax_solve (G := x86) 1000 118 <> (-1, -1) <->
  (1 # 512 <= SF2Q p_reduced /\ SF2Q p_reduced < 32)%Q.
Proof.
  refine (SetAMax_finds_pair_iff (G := x86) 1000 118 _ _).
  - reflexivity.
  - unfold is_u8. lia.
Defined.
